(** * Upload route and insights page: asset-id resolution and response
      normalisation

    A shallow embedding of [src/app/api/upload/route.ts] (the recursive
    asset-id resolver [deepExtractAssetIds] and the [POST] handler with
    its two-field-name upload loop) and of [handleAnalyze] from
    [src/app/page.tsx], followed by the properties of the specification
    that concern them.

    Layout: the value model ([Json]), the route ([Upload]), the page
    ([Page]), sample environments, the file helpers and the upload side
    of the page ([Files], [Coordinator]), and then the theorems. *)

From Stdlib Require Import List String Ascii ZArith Arith Bool Lia.
From Stdlib Require Import DecimalString Permutation.
Import ListNotations.
Local Open Scope string_scope.
Local Open Scope list_scope.
Local Open Scope nat_scope.

(* ===================================================================== *)
(** ** JavaScript values obtained from JSON *)
(* ===================================================================== *)

Module Json.

#[local] Unset Elimination Schemes.

(** The closed union of values [JSON.parse] can return.  A mapping is
    kept as the list of its own properties in [Object.keys] order; a
    parsed object never has two properties of the same name ([wf]
    below).  Strings are sequences of code units, [String.length]
    standing for [.length].  The numeric payload is never inspected by
    the code under study beyond its truthiness. *)
Inductive json : Type :=
| JNull
| JBool (b : bool)
| JNum (n : Z)
| JStr (s : string)
| JArr (items : list json)
| JObj (entries : list (string * json)).

#[local] Set Elimination Schemes.

(** Induction over values, with the hypothesis available for every
    element of an array and every property value of a mapping. *)
Definition json_ind (P : json -> Prop)
    (HNull : P JNull)
    (HBool : forall b, P (JBool b))
    (HNum : forall n, P (JNum n))
    (HStr : forall s, P (JStr s))
    (HArr : forall items, Forall P items -> P (JArr items))
    (HObj : forall entries,
        Forall (fun kv => P (snd kv)) entries -> P (JObj entries))
  : forall v, P v :=
  fix go (v : json) : P v :=
    match v with
    | JNull => HNull
    | JBool b => HBool b
    | JNum n => HNum n
    | JStr s => HStr s
    | JArr items =>
        HArr items
          ((fix all (l : list json) : Forall P l :=
              match l with
              | [] => Forall_nil P
              | x :: l' => Forall_cons x (go x) (all l')
              end) items)
    | JObj entries =>
        HObj entries
          ((fix all (l : list (string * json))
              : Forall (fun kv => P (snd kv)) l :=
              match l with
              | [] => Forall_nil _
              | kv :: l' =>
                  @Forall_cons _ (fun kv => P (snd kv)) kv l'
                    (go (snd kv)) (all l')
              end) entries)
    end.

(** A value that may be [undefined]: the result of a property read. *)
Definition jsval := option json.

(** [obj[key]] on a mapping given by its property list. *)
Fixpoint lookup (key : string) (entries : list (string * json)) : jsval :=
  match entries with
  | [] => None
  | (k, v) :: rest => if String.eqb key k then Some v else lookup key rest
  end.

(** [v.key] for a non-nullish [v], restricted to the property names
    the code reads (none of which is an own or inherited property of a
    string, number, boolean or array). *)
Definition prop (v : json) (key : string) : jsval :=
  match v with
  | JObj entries => lookup key entries
  | _ => None
  end.

(** [v?.key]. *)
Definition optProp (v : jsval) (key : string) : jsval :=
  match v with
  | None | Some JNull => None
  | Some o => prop o key
  end.

(** JavaScript truthiness. *)
Definition truthy (v : jsval) : bool :=
  match v with
  | None | Some JNull => false
  | Some (JBool b) => b
  | Some (JNum n) => negb (Z.eqb n 0)
  | Some (JStr s) => negb (String.eqb s "")
  | Some (JArr _) | Some (JObj _) => true
  end.

(** [a ?? b]: [b] only when [a] is [null] or [undefined]. *)
Definition nullish (a b : jsval) : jsval :=
  match a with
  | None | Some JNull => b
  | Some _ => a
  end.

(** [a || b]. *)
Definition orElse (a b : jsval) : jsval := if truthy a then a else b.

(** No mapping anywhere in the value has two properties of one name. *)
Fixpoint wf (v : json) : Prop :=
  match v with
  | JArr items => fold_right (fun x acc => wf x /\ acc) True items
  | JObj entries =>
      NoDup (map fst entries)
      /\ fold_right (fun kv acc => wf (snd kv) /\ acc) True entries
  | _ => True
  end.

(** Every text value occurring in the value, in document order. *)
Fixpoint textValues (v : json) : list string :=
  match v with
  | JStr s => [s]
  | JArr items => flat_map textValues items
  | JObj entries => flat_map (fun kv => textValues (snd kv)) entries
  | _ => []
  end.

End Json.

Import Json.

(** Decimal rendering of a length or status inside a template string. *)
Definition showNat (n : nat) : string :=
  NilEmpty.string_of_uint (Nat.to_uint n).

(** Errors thrown and caught: a thrown value is recorded by the text the
    handler would print for it. *)
Inductive result (A : Type) : Type :=
| Ok (a : A)
| Throw (msg : string).
Arguments Ok {A} a.
Arguments Throw {A} msg.

Definition bind {A B} (r : result A) (k : A -> result B) : result B :=
  match r with
  | Ok a => k a
  | Throw m => Throw m
  end.

Notation "x <- c ;; k" := (bind c (fun x => k))
  (at level 61, c at next level, right associativity).

(* ===================================================================== *)
(** ** src/app/api/upload/route.ts *)
(* ===================================================================== *)

Module Upload.

(** *** The resolver *)

Definition idKeys : list string :=
  [ "asset_id"; "assetId"; "asset_ids"; "assetIds";
    "id"; "_id"; "file_id"; "fileId";
    "upload_id"; "uploadId"; "document_id"; "documentId" ].

(** [typeof v === 'string' && v.length > 0]. *)
Definition nonEmptyText (v : json) : list string :=
  match v with
  | JStr s => if 0 <? String.length s then [s] else []
  | _ => []
  end.

(** What one present id key contributes: its value when it is a
    non-empty string, or the non-empty strings of its array value. *)
Definition idsOfValue (val : json) : list string :=
  match val with
  | JStr s => if 0 <? String.length s then [s] else []
  | JArr vs => flat_map nonEmptyText vs
  | _ => []
  end.

(** The loop [for (const key of idKeys) if (key in obj) ...]. *)
Definition scanKeys (keys : list string) (entries : list (string * json))
  : list string :=
  flat_map (fun key => match lookup key entries with
                       | Some val => idsOfValue val
                       | None => []
                       end) keys.

Definition scanIdKeys := scanKeys idKeys.

Fixpoint deepExtractAssetIds (obj : json) (depth : nat) {struct obj}
  : list string :=
  if 10 <? depth then [] else
  match obj with
  | JNull | JBool _ | JNum _ | JStr _ => []
  | JArr items =>
      flat_map
        (fun item =>
           match item with
           | JStr s => if 10 <=? String.length s then [s] else []
           | JNull | JArr _ | JObj _ => deepExtractAssetIds item (S depth)
           | JBool _ | JNum _ => []
           end) items
  | JObj entries =>
      match scanIdKeys entries with
      | [] =>
          flat_map
            (fun kv =>
               match snd kv with
               | JArr _ | JObj _ => deepExtractAssetIds (snd kv) (S depth)
               | _ => []
               end) entries
      | ids => ids
      end
  end.

(** The call with the default [depth = 0]. *)
Definition resolve (raw : json) : list string := deepExtractAssetIds raw 0.

(** *** The POST handler *)

(** A [File] of the form: its name, its MIME type, and what
    [file.arrayBuffer()] resolves to. *)
Record File :=
  { file_name : string; file_type : string; arrayBuffer : result string }.

(** [FormDataEntryValue]: a string field or a [File]. *)
Inductive FormDataEntryValue :=
| EntryText (s : string)
| EntryFile (f : File).

Record Blob := { blob_type : string; blob_data : string }.
Record FileEntry := { name : string; blob : Blob }.

(** The incoming request: [request.formData()] rejects or yields the
    multipart fields in order. *)
Record NextRequest :=
  { formData : result (list (string * FormDataEntryValue)) }.

Definition getAll (field : string)
    (fd : list (string * FormDataEntryValue)) : list FormDataEntryValue :=
  map snd (filter (fun e => String.eqb (fst e) field) fd).

(** The upstream [Response]: its status and what [response.text()]
    resolves to. *)
Record Response := { status : nat; text : result string }.

(** [response.ok]. *)
Definition ok (r : Response) : bool :=
  (200 <=? status r) && (status r <=? 299).

Record UploadedFile :=
  { uf_asset_id : json;
    uf_file_name : json;
    uf_success : json;
    uf_error : jsval }.

Record Debug :=
  { raw_keys : list string; raw_response : string; debug_status : nat }.

(** The JSON body handed to [NextResponse.json]; the [timestamp] field
    (the wall clock) is left out. *)
Record UploadResult :=
  { success : bool;
    asset_ids : list string;
    files : list UploadedFile;
    total_files : json;
    successful_uploads : nat;
    failed_uploads : nat;
    message : string;
    _debug : option Debug;
    error : jsval }.

Record NextResponse := { body : UploadResult; http_status : nat }.

Definition jnat (n : nat) : json := JNum (Z.of_nat n).

(** The literal every failing branch returns, up to its counts, texts
    and status. *)
Definition failure (total failed : nat) (msg : string) (err : json)
    (st : nat) : NextResponse :=
  {| body := {| success := false; asset_ids := []; files := [];
                total_files := jnat total; successful_uploads := 0;
                failed_uploads := failed; message := msg;
                _debug := None; error := Some err |};
     http_status := st |}.

(** [a || b] with a defined right operand. *)
Definition orElseJ (a : jsval) (b : json) : json :=
  match orElse a (Some b) with Some v => v | None => b end.

(** [v.key] where reading a property of [null] throws. *)
Definition propStrict (v : json) (key : string) : result jsval :=
  match v with
  | JNull => Throw ("Cannot read properties of null (reading '"
                      ++ key ++ "')")%string
  | _ => Ok (prop v key)
  end.

Fixpoint mapM {A B} (f : A -> result B) (l : list A) : result (list B) :=
  match l with
  | [] => Ok []
  | x :: l' => y <- f x ;; ys <- mapM f l' ;; Ok (y :: ys)
  end.

(** The callback of [resultArrays.map]. *)
Definition describeResult (r : json) : result UploadedFile :=
  a1 <- propStrict r "asset_id" ;;
  let aid :=
    orElseJ (orElse a1 (orElse (prop r "assetId") (orElse (prop r "id")
               (orElse (prop r "_id") (prop r "file_id"))))) (JStr "") in
  let fname :=
    orElseJ (orElse (prop r "file_name") (orElse (prop r "filename")
               (orElse (prop r "name") (prop r "original_name"))))
            (JStr "") in
  let succ :=
    match nullish (prop r "success") (Some (JBool true)) with
    | Some v => v
    | None => JBool true
    end in
  Ok {| uf_asset_id := aid; uf_file_name := fname; uf_success := succ;
        uf_error := prop r "error" |}.

(** [Object.keys(data)] for a value with [typeof data === 'object']. *)
Definition objectKeys (data : json) : result (list string) :=
  match data with
  | JObj entries => Ok (map fst entries)
  | JArr items => Ok (map showNat (seq 0 (List.length items)))
  | JNull => Throw "Cannot convert undefined or null to object"
  | _ => Ok []
  end.

Record LoopState :=
  { response : option Response; responseText : string; data : json }.

Section Handler.

(** The server's environment: the configured key, [JSON.parse]
    ([None] when it throws), and the upstream service as the handler
    reaches it, by multipart field name and appended entries. *)
Variable LYZR_API_KEY : string.
Variable JSON_parse : string -> option json.
Variable fetch : string -> list FileEntry -> result Response.

(** The loop [for (const fieldName of ['file', 'files'])].  The first
    component lists the field names an upload was attempted with. *)
Fixpoint uploadLoop (fieldNames : list string)
    (fileEntries : list FileEntry) (st : LoopState)
  : list string * result LoopState :=
  match fieldNames with
  | [] => ([], Ok st)
  | fieldName :: rest =>
      match fetch fieldName fileEntries with
      | Throw m => ([fieldName], Throw m)
      | Ok resp =>
          match text resp with
          | Throw m => ([fieldName], Throw m)
          | Ok txt =>
              let d := match JSON_parse txt with
                       | Some d => d
                       | None => JObj [("_raw", JStr txt)]
                       end in
              let st' := {| response := Some resp;
                            responseText := txt; data := d |} in
              let next :=
                if (status resp =? 422) || (status resp =? 400)
                then let (tr, r) := uploadLoop rest fileEntries st' in
                     (fieldName :: tr, r)
                else ([fieldName], Ok st') in
              if ok resp then
                if 0 <? List.length (deepExtractAssetIds d 0)
                then ([fieldName], Ok st')
                else next
              else next
          end
      end
  end.

(** The conversion loop over [files]: every [File] becomes a named
    [Blob]; string fields are skipped. *)
Fixpoint toFileEntries (fs : list FormDataEntryValue)
  : result (list FileEntry) :=
  match fs with
  | [] => Ok []
  | EntryFile f :: rest =>
      buffer <- arrayBuffer f ;;
      entries <- toFileEntries rest ;;
      Ok ({| name := file_name f;
             blob := {| blob_type :=
                          if String.eqb (file_type f) ""
                          then "application/octet-stream"
                          else file_type f;
                        blob_data := buffer |} |} :: entries)
  | EntryText _ :: rest => toFileEntries rest
  end.

(** The branch [if (response.ok)] after the loop. *)
Definition okBranch (nfiles : nat) (fileEntries : list FileEntry)
    (resp : Response) (txt : string) (d : json) : result NextResponse :=
  let assetIds := deepExtractAssetIds d 0 in
  results <- propStrict d "results" ;;
  let resultArrays :=
    orElse results (orElse (prop d "files")
      (match d with JArr _ => Some d | _ => Some JNull end)) in
  uploadedFiles <-
    match resultArrays with
    | Some (JArr rs) => mapM describeResult rs
    | _ =>
        Ok (map (fun id =>
                   {| uf_asset_id := JStr id;
                      uf_file_name :=
                        orElseJ (match fileEntries with
                                 | e :: _ => Some (JStr (name e))
                                 | [] => None
                                 end) (JStr "");
                      uf_success := JBool true;
                      uf_error := None |}) assetIds)
    end ;;
  let n := List.length assetIds in
  dbg <-
    (if n =? 0
     then keys <- match d with
                  | JNull | JArr _ | JObj _ => objectKeys d
                  | _ => Ok []
                  end ;;
          Ok (Some {| raw_keys := keys;
                      raw_response := substring 0 500 txt;
                      debug_status := status resp |})
     else Ok None) ;;
  Ok {| body :=
          {| success := 0 <? n;
             asset_ids := assetIds;
             files := uploadedFiles;
             total_files := orElseJ (prop d "total_files") (jnat nfiles);
             successful_uploads := n;
             failed_uploads := if 0 <? n then 0 else nfiles;
             message :=
               if 0 <? n
               then ("Successfully uploaded " ++ showNat n
                       ++ " file(s)")%string
               else "Upload completed but no asset IDs found in response";
             _debug := dbg;
             error := None |};
        http_status := 200 |}.

(** [NextResponse.json(body, { status })] for a status taken from
    elsewhere: the [Response] constructor behind it throws a
    [RangeError] when the status lies outside 200-599 and a [TypeError]
    when it is a null-body status (204, 205, 304; 101 and 103 are out of
    range already).  The literal statuses 400 and 500 and the default
    200 used by the other branches are always accepted. *)
Definition NextResponse_json (r : NextResponse) : result NextResponse :=
  let st := http_status r in
  if (st <? 200) || (599 <? st)
  then Throw ("init[" ++ String (ascii_of_nat 34) "status"
                ++ String (ascii_of_nat 34)
                     "] must be in the range of 200 to 599, inclusive.")%string
  else if (st =? 204) || (st =? 205) || (st =? 304)
  then Throw ("Response constructor: Invalid response status code "
                ++ showNat st)%string
  else Ok r.

(** The [else] branch: the upstream answered with a non-2xx status. *)
Definition failBranch (nfiles : nat) (resp : Response) (txt : string)
    (d : json) : result NextResponse :=
  NextResponse_json
    (failure nfiles nfiles
       ("Upload failed with status " ++ showNat (status resp))%string
       (orElseJ (orElse (optProp (Some d) "detail")
                   (orElse (optProp (Some d) "message")
                      (optProp (Some d) "error")))
                (JStr (substring 0 300 txt)))
       (status resp)).

(** The body of the [try] block. *)
Definition tryPOST (request : NextRequest)
  : list string * result NextResponse :=
  if String.eqb LYZR_API_KEY "" then
    ([], Ok (failure 0 0 "LYZR_API_KEY not configured"
               (JStr "LYZR_API_KEY not configured on server") 500))
  else
    match formData request with
    | Throw m => ([], Throw m)
    | Ok fd =>
        let files := getAll "files" fd in
        if List.length files =? 0 then
          ([], Ok (failure 0 0 "No files provided"
                     (JStr "No files provided") 400))
        else
          match toFileEntries files with
          | Throw m => ([], Throw m)
          | Ok fileEntries =>
              let (attempts, looped) :=
                uploadLoop ["file"; "files"] fileEntries
                  {| response := None; responseText := "";
                     data := JObj [] |} in
              (attempts,
               st <- looped ;;
               match response st with
               | None =>
                   Ok (failure (List.length files) (List.length files)
                         "Failed to connect to upload API"
                         (JStr "No response received from upload API") 500)
               | Some resp =>
                   if ok resp
                   then okBranch (List.length files) fileEntries resp
                          (responseText st) (data st)
                   else failBranch (List.length files) resp
                          (responseText st) (data st)
               end)
          end
    end.

(** [POST]: the [try] block, any thrown error turned into the
    server-error body by the [catch]. *)
Definition POST (request : NextRequest) : list string * NextResponse :=
  let (attempts, r) := tryPOST request in
  (attempts,
   match r with
   | Ok resp => resp
   | Throw m => failure 0 0 "Server error during upload" (JStr m) 500
   end).

End Handler.

End Upload.

(* ===================================================================== *)
(** ** src/app/page.tsx *)
(* ===================================================================== *)

Module Page.

Definition AGENT_ID : string := "6996cd83744b96afe6ba69ee".

Definition ANALYZE_MESSAGE : string :=
  "Analyze this data file and provide a comprehensive executive summary with key findings, data patterns, anomalies, recommendations, and statistics.".

(** The component state [handleAnalyze] reads and writes.  In the
    [jsval] fields [None] is the empty state ([null], or [undefined]
    when that is what was stored). *)
Record PageState :=
  { assetIds : list string;
    analyzing : bool;
    insights : jsval;
    pdfUrl : jsval;
    error : jsval;
    sessionId : jsval;
    activeAgentId : option string;
    processing : bool }.

Definition setAnalyzing b st :=
  {| assetIds := assetIds st; analyzing := b; insights := insights st;
     pdfUrl := pdfUrl st; error := error st; sessionId := sessionId st;
     activeAgentId := activeAgentId st; processing := processing st |}.
Definition setInsights v st :=
  {| assetIds := assetIds st; analyzing := analyzing st; insights := v;
     pdfUrl := pdfUrl st; error := error st; sessionId := sessionId st;
     activeAgentId := activeAgentId st; processing := processing st |}.
Definition setPdfUrl v st :=
  {| assetIds := assetIds st; analyzing := analyzing st;
     insights := insights st; pdfUrl := v; error := error st;
     sessionId := sessionId st; activeAgentId := activeAgentId st;
     processing := processing st |}.
Definition setError v st :=
  {| assetIds := assetIds st; analyzing := analyzing st;
     insights := insights st; pdfUrl := pdfUrl st; error := v;
     sessionId := sessionId st; activeAgentId := activeAgentId st;
     processing := processing st |}.
Definition setSessionId v st :=
  {| assetIds := assetIds st; analyzing := analyzing st;
     insights := insights st; pdfUrl := pdfUrl st; error := error st;
     sessionId := v; activeAgentId := activeAgentId st;
     processing := processing st |}.
Definition setActiveAgentId v st :=
  {| assetIds := assetIds st; analyzing := analyzing st;
     insights := insights st; pdfUrl := pdfUrl st; error := error st;
     sessionId := sessionId st; activeAgentId := v;
     processing := processing st |}.
Definition setProcessing b st :=
  {| assetIds := assetIds st; analyzing := analyzing st;
     insights := insights st; pdfUrl := pdfUrl st; error := error st;
     sessionId := sessionId st; activeAgentId := activeAgentId st;
     processing := b |}.

(** What a state slot holds once a value is stored in it: [null] and
    [undefined] both leave the empty slot. *)
Definition slot (v : jsval) : jsval :=
  match v with
  | None | Some JNull => None
  | Some _ => v
  end.

Section Analyze.

(** [JSON.parse] ([None] when it throws) and the agent call: it
    rejects, or resolves to the response value. *)
Variable JSON_parse : string -> option json.
Variable callAIAgent : string -> string -> list string -> result jsval.

(** The [if (result?.success)] branch. *)
Definition onSuccess (result : jsval) (st : PageState) : PageState :=
  let parsedResult := optProp (optProp result "response") "result" in
  let parsedResult :=
    match parsedResult with
    | Some (JStr s) =>
        match JSON_parse s with
        | Some v => Some v
        | None => Some (JObj [("executive_summary", JStr s)])
        end
    | other => other
    end in
  let st := setInsights (slot parsedResult) st in
  let artifacts := optProp (optProp result "module_outputs") "artifact_files" in
  match artifacts with
  | Some (JArr (first :: _)) =>
      let url := optProp (Some first) "file_url" in
      if truthy url then setPdfUrl url st else st
  | _ => st
  end.

(** The [else] branch. *)
Definition onFailure (result : jsval) (st : PageState) : PageState :=
  setError
    (nullish (optProp result "error")
       (nullish (optProp (optProp result "response") "message")
          (Some (JStr "Analysis failed. Please try again.")))) st.

Definition handleAnalyze (st : PageState) : PageState :=
  if List.length (assetIds st) =? 0 then st else
  let st := setAnalyzing true st in
  let st := setError None st in
  let st := setInsights None st in
  let st := setPdfUrl None st in
  let st := setActiveAgentId (Some AGENT_ID) st in
  let st := setProcessing true st in
  let st :=
    match callAIAgent ANALYZE_MESSAGE AGENT_ID (assetIds st) with
    | Ok result =>
        let st :=
          if truthy (optProp result "session_id")
          then setSessionId (optProp result "session_id") st
          else st in
        if truthy (optProp result "success")
        then onSuccess result st
        else onFailure result st
    | Throw _ =>
        setError
          (Some (JStr "Network error. Please check your connection and try again."))
          st
    end in
  let st := setAnalyzing false st in
  let st := setActiveAgentId None st in
  setProcessing false st.

End Analyze.

(** *** What [InsightsDisplay] reads from the stored insights *)

(** [Array.isArray(x) ? x : []]. *)
Definition arrayOrEmpty (x : jsval) : list json :=
  match x with
  | Some (JArr l) => l
  | _ => []
  end.

Definition findings (data : jsval) := arrayOrEmpty (optProp data "key_findings").
Definition patterns (data : jsval) := arrayOrEmpty (optProp data "data_patterns").
Definition anomalies (data : jsval) := arrayOrEmpty (optProp data "anomalies").
Definition recommendations (data : jsval) :=
  arrayOrEmpty (optProp data "recommendations").
Definition keyMetrics (data : jsval) :=
  arrayOrEmpty (optProp (optProp data "statistics") "key_metrics").
Definition totalRows (data : jsval) : jsval :=
  nullish (optProp (optProp data "statistics") "total_rows") (Some (JStr "--")).
Definition totalColumns (data : jsval) : jsval :=
  nullish (optProp (optProp data "statistics") "total_columns")
    (Some (JStr "--")).

End Page.

(* ===================================================================== *)
(** ** Notions used by the statements, and sample inputs *)
(* ===================================================================== *)

Module Samples.
Import Upload Page.

(** A response nested [remaining] levels below the current mapping,
    whose identifier sits in the mapping at depth [pos]: the mapping at
    depth [cur] holds [id] exactly when [cur = pos], and holds the next
    level under [data] as long as levels remain. *)
Fixpoint nestedFrom (remaining cur pos : nat) (X : string) : json :=
  JObj ((if cur =? pos then [("id", JStr X)] else [])
          ++ match remaining with
             | 0 => []
             | S r => [("data", nestedFrom r (S cur) pos X)]
             end).

Definition nested (levels pos : nat) (X : string) : json :=
  nestedFrom levels 0 pos X.

(** The reading of the recursion bound under which an identifier at
    depth 12 is found and one at depth 11 is not. *)
Definition found_at_12_not_at_11 (X : string) : Prop :=
  resolve (nested 15 12 X) = [X] /\ resolve (nested 15 11 X) = [].

(** The texts held under a recognised key anywhere in a value: the
    non-empty text value of such a key, or the non-empty text elements
    of its array value. *)
Fixpoint underIdKey (v : json) : list string :=
  match v with
  | JArr items => flat_map underIdKey items
  | JObj entries =>
      flat_map (fun kv =>
                  (if existsb (String.eqb (fst kv)) idKeys
                   then idsOfValue (snd kv) else [])
                    ++ underIdKey (snd kv)) entries
  | _ => []
  end.

Definition idAndNested : json :=
  JObj [("id", JStr "x");
        ("nested", JObj [("asset_id", JStr "long-identifier-123")])].

Definition sameIdTwice : json :=
  JObj [("asset_id", JStr "asset-0123456789");
        ("id", JStr "asset-0123456789")].

(** The invariant of the normalised upload result: [success] exactly
    when some asset id was resolved. *)
Definition successMatchesAssetIds (r : NextResponse) : Prop :=
  success (body r) = true <-> asset_ids (body r) <> [].

(** A [JSON.parse] stand-in that knows the empty object and the empty
    array and throws on every other text. *)
Definition parseEmptyOnly (s : string) : option json :=
  if String.eqb s "{}" then Some (JObj [])
  else if String.eqb s "[]" then Some (JArr [])
  else None.

Definition oneCsv : NextRequest :=
  {| formData :=
       Ok [("files", EntryFile {| file_name := "sales.csv";
                                  file_type := "text/csv";
                                  arrayBuffer := Ok "a,b" |})] |}.

(** An upstream that answers 200 with an empty object whatever the
    field name. *)
Definition upstreamEmptyOk (fieldName : string) (entries : list FileEntry)
  : result Response :=
  Ok {| status := 200; text := Ok "{}" |}.

(** An upstream that rejects every upload with the given status. *)
Definition upstreamStatus (st : nat) (fieldName : string)
    (entries : list FileEntry) : result Response :=
  Ok {| status := st; text := Ok "{}" |}.

(** A property read that yields [undefined] or [null]. *)
Definition missing (v : jsval) : Prop := v = None \/ v = Some JNull.

Definition readyState : PageState :=
  {| assetIds := ["asset-0123456789"]; analyzing := false;
     insights := None; pdfUrl := None; error := None; sessionId := None;
     activeAgentId := None; processing := false |}.

Definition agentReturns (raw : json) (message agent : string)
    (assets : list string) : result jsval := Ok (Some raw).

Definition notJsonResponse : json :=
  JObj [("success", JBool true);
        ("response", JObj [("result", JStr "not json")])].

Definition failedResponse : json :=
  JObj [("success", JBool false); ("error", JStr "X")].

Definition twoArtifacts : json :=
  JArr [JObj [("file_url", JStr "U1")]; JObj [("file_url", JStr "U2")]].

Definition successWithArtifacts : json :=
  JObj [("success", JBool true);
        ("response", JObj [("result", JStr "not json")]);
        ("module_outputs", JObj [("artifact_files", twoArtifacts)])].

Definition failureWithArtifacts : json :=
  JObj [("success", JBool false);
        ("error", JStr "agent failed");
        ("module_outputs", JObj [("artifact_files", twoArtifacts)])].

End Samples.

(* ===================================================================== *)
(** ** src/app/page.tsx: file helpers and the upload side of the page *)
(* ===================================================================== *)

Module Files.
Import Upload.

(** [toLowerCase] on one code unit of the range the string model covers
    (up to U+00FF): the letters A-Z, and U+00C0-U+00DE except the
    multiplication sign U+00D7, move up by 32. *)
Definition lowerChar (c : ascii) : ascii :=
  let n := nat_of_ascii c in
  if ((65 <=? n) && (n <=? 90))
     || ((192 <=? n) && (n <=? 222) && negb (n =? 215))
  then ascii_of_nat (n + 32) else c.

Fixpoint toLowerCase (s : string) : string :=
  match s with
  | EmptyString => EmptyString
  | String c s' => String (lowerChar c) (toLowerCase s')
  end.

(** [s.split(sep)] for a one-character separator: the segments between
    the separators, one more than there are separators. *)
Fixpoint split (sep : ascii) (s : string) : list string :=
  match s with
  | EmptyString => [EmptyString]
  | String c s' =>
      if Ascii.eqb c sep then EmptyString :: split sep s'
      else match split sep s' with
           | seg :: segs => String c seg :: segs
           | [] => [String c EmptyString]
           end
  end.

(** [arr.pop()]: the last element, [undefined] on an empty array. *)
Fixpoint pop (l : list string) : option string :=
  match l with
  | [] => None
  | [x] => Some x
  | _ :: l' => pop l'
  end.

Definition getFileExtension (name : string) : string :=
  match pop (split "." name) with
  | Some ext => toLowerCase ext
  | None => ""
  end.

Definition ACCEPTED_EXTENSIONS : list string := ["xlsx"; "xls"; "csv"].

Definition acceptedTypes : list string :=
  [ "application/vnd.openxmlformats-officedocument.spreadsheetml.sheet";
    "application/vnd.ms-excel";
    "text/csv" ].

(** [arr.includes(x)] on strings. *)
Definition includes (arr : list string) (x : string) : bool :=
  existsb (String.eqb x) arr.

End Files.

Module Coordinator.
Import Upload Page Files.

(** Modelled from the spec: the type of the value [uploadFiles] resolves
    to ([@/lib/aiAgent] is not among the sources), as far as
    [handleFileSelect] reads it: the [success] flag, [asset_ids] ([None]
    when it is not an array) and the optional [error] text of the
    normalised upload result. *)
Record UploadOutcome :=
  { up_success : bool;
    up_asset_ids : option (list string);
    up_error : option string }.

(** The component state: the part [handleAnalyze] works on, and the
    upload side. *)
Record AppState :=
  { page : PageState;
    file : option File;
    fileError : option string;
    uploading : bool;
    showSample : bool;
    isDragging : bool }.

Definition setAssetIds (ids : list string) (st : PageState) : PageState :=
  {| assetIds := ids; analyzing := analyzing st; insights := insights st;
     pdfUrl := pdfUrl st; error := Page.error st; sessionId := sessionId st;
     activeAgentId := activeAgentId st; processing := processing st |}.

Definition withPage (pg : PageState) (st : AppState) : AppState :=
  {| page := pg; file := file st; fileError := fileError st;
     uploading := uploading st; showSample := showSample st;
     isDragging := isDragging st |}.
Definition setFile (f : option File) (st : AppState) : AppState :=
  {| page := page st; file := f; fileError := fileError st;
     uploading := uploading st; showSample := showSample st;
     isDragging := isDragging st |}.
Definition setFileError (e : option string) (st : AppState) : AppState :=
  {| page := page st; file := file st; fileError := e;
     uploading := uploading st; showSample := showSample st;
     isDragging := isDragging st |}.
Definition setUploading (b : bool) (st : AppState) : AppState :=
  {| page := page st; file := file st; fileError := fileError st;
     uploading := b; showSample := showSample st;
     isDragging := isDragging st |}.
Definition setShowSample (b : bool) (st : AppState) : AppState :=
  {| page := page st; file := file st; fileError := fileError st;
     uploading := uploading st; showSample := b;
     isDragging := isDragging st |}.
Definition setIsDragging (b : bool) (st : AppState) : AppState :=
  {| page := page st; file := file st; fileError := fileError st;
     uploading := uploading st; showSample := showSample st;
     isDragging := b |}.

Definition validateFile (f : File) (st : AppState) : bool * AppState :=
  if negb (includes ACCEPTED_EXTENSIONS (getFileExtension (file_name f)))
     && negb (includes acceptedTypes (file_type f))
  then (false,
        setFileError
          (Some "Unsupported format. Please upload .xlsx or .csv files only.")
          st)
  else (true, setFileError None st).

Section Handlers.

(** The upload client: it rejects, or resolves to an outcome.  The agent
    call and [JSON.parse] are as in [Page]; [agentEventsReset] is what
    [agentEvents.reset()] does to the processing flag of the hook. *)
Variable uploadFiles : File -> result UploadOutcome.
Variable JSON_parse : string -> option json.
Variable callAIAgent : string -> string -> list string -> result jsval.
Variable agentEventsReset : bool -> bool.

(** [handleFileSelect]: the first component lists the files handed to
    [uploadFiles]. *)
Definition handleFileSelect (selectedFile : File) (st : AppState)
  : list File * AppState :=
  let (valid, st) := validateFile selectedFile st in
  if negb valid then ([], st) else
  let st := setFile (Some selectedFile) st in
  let st := setFileError None st in
  let st := withPage (setError None (page st)) st in
  let st := withPage (setInsights None (page st)) st in
  let st := withPage (setPdfUrl None (page st)) st in
  let st := withPage (setAssetIds [] (page st)) st in
  let st := setUploading true st in
  let st :=
    match uploadFiles selectedFile with
    | Ok uploadResult =>
        match up_success uploadResult, up_asset_ids uploadResult with
        | true, Some (id :: ids) =>
            withPage (setAssetIds (id :: ids) (page st)) st
        | _, _ =>
            setFileError
              (Some (match up_error uploadResult with
                     | Some e => e
                     | None => "Upload failed. Please try again."
                     end)) st
        end
    | Throw _ =>
        setFileError
          (Some "Upload failed. Please check your connection and try again.")
          st
    end in
  ([selectedFile], setUploading false st).

(** [handleDrop], given [e.dataTransfer.files]. *)
Definition handleDrop (dropped : list File) (st : AppState)
  : list File * AppState :=
  let st := setIsDragging false st in
  match dropped with
  | f :: _ => handleFileSelect f st
  | [] => ([], st)
  end.

(** [handleInputChange], given [e.target.files]. *)
Definition handleInputChange (selected : list File) (st : AppState)
  : list File * AppState :=
  match selected with
  | f :: _ => handleFileSelect f st
  | [] => ([], st)
  end.

(** [handleAnalyze] on the whole component state. *)
Definition analyze (st : AppState) : AppState :=
  withPage (handleAnalyze JSON_parse callAIAgent (page st)) st.


End Handlers.


End Coordinator.

Module MoreSamples.
Import Upload Page Files Coordinator.

Definition csvFile : File :=
  {| file_name := "Q3.Sales.CSV"; file_type := ""; arrayBuffer := Ok "a,b" |}.

Definition pdfFile : File :=
  {| file_name := "report.pdf"; file_type := "application/pdf";
     arrayBuffer := Ok "%PDF" |}.

Definition idle : AppState :=
  {| page := {| assetIds := []; analyzing := false; insights := None;
                pdfUrl := None; error := None; sessionId := None;
                activeAgentId := None; processing := false |};
     file := None; fileError := None; uploading := false;
     showSample := false; isDragging := false |}.

Definition uploadsTo (ids : list string) (f : File) : result UploadOutcome :=
  Ok {| up_success := true; up_asset_ids := Some ids; up_error := None |}.

Definition uploadFails (f : File) : result UploadOutcome :=
  Ok {| up_success := false; up_asset_ids := Some [];
        up_error := Some "Upload completed but no asset IDs found in response" |}.

(** The double-quote character and a quoted JSON string. *)
Definition dquote : string := String (ascii_of_nat 34) EmptyString.
Definition quoted (s : string) : string := (dquote ++ s ++ dquote)%string.

(** The body text [{"asset_id":"asset-0123456789"}]. *)
Definition oneIdBody : string :=
  ("{" ++ quoted "asset_id" ++ ":" ++ quoted "asset-0123456789" ++ "}")%string.

(** The body text [{"results":[null]}]. *)
Definition nullResultBody : string :=
  ("{" ++ quoted "results" ++ ":[null]}")%string.

(** A [JSON.parse] stand-in that knows the empty object, [null] and the
    two bodies above, and throws on every other text. *)
Definition parseSample (s : string) : option json :=
  if String.eqb s "{}" then Some (JObj [])
  else if String.eqb s "null" then Some JNull
  else if String.eqb s oneIdBody
       then Some (JObj [("asset_id", JStr "asset-0123456789")])
  else if String.eqb s nullResultBody
       then Some (JObj [("results", JArr [JNull])])
  else None.

(** The fields of the sample request and the entries built from them. *)
Definition csvFields : list (string * FormDataEntryValue) :=
  [("files", EntryFile {| file_name := "sales.csv"; file_type := "text/csv";
                          arrayBuffer := Ok "a,b" |})].

Definition csvEntries : list FileEntry :=
  [ {| name := "sales.csv";
       blob := {| blob_type := "text/csv"; blob_data := "a,b" |} |} ].

(** An upstream that answers every attempt with 200 and the given body. *)
Definition upstreamBody (bodyText : string) (fieldName : string)
    (entries : list FileEntry) : result Response :=
  Ok {| status := 200; text := Ok bodyText |}.

(** An upstream that rejects the field name [file] with 422 and answers
    [files] with 200 and one asset id. *)
Definition upstreamWantsFiles (fieldName : string) (entries : list FileEntry)
  : result Response :=
  if String.eqb fieldName "files"
  then Ok {| status := 200; text := Ok oneIdBody |}
  else Ok {| status := 422; text := Ok "{}" |}.

Definition agentThrows (message agent : string) (assets : list string)
  : result jsval := Throw "Failed to fetch".

Definition structuredResponse : json :=
  JObj [("success", JBool true);
        ("session_id", JStr "session-1");
        ("response",
         JObj [("result", JObj [("executive_summary", JStr "ok")])])].

Definition failedWithSession : json :=
  JObj [("success", JBool false); ("session_id", JStr "session-2")].

(** The state after [csvFile] was uploaded to one asset id. *)
Definition uploaded : AppState :=
  {| page := {| assetIds := ["asset-0123456789"]; analyzing := false;
                insights := None; pdfUrl := None; error := None;
                sessionId := None; activeAgentId := None;
                processing := false |};
     file := Some csvFile; fileError := None; uploading := false;
     showSample := false; isDragging := false |}.

End MoreSamples.

(* ===================================================================== *)
(** ** Properties of the resolver *)
(* ===================================================================== *)

Module ResolverFacts.
Import Upload Samples.

(** *** Unfolding equations *)

Lemma deep_beyond_bound obj depth :
  10 < depth -> deepExtractAssetIds obj depth = [].
Proof.
  intros H. apply Nat.ltb_lt in H.
  destruct obj; simpl; rewrite H; reflexivity.
Qed.

Lemma deep_primitive obj depth :
  match obj with JArr _ | JObj _ => False | _ => True end ->
  deepExtractAssetIds obj depth = [].
Proof.
  destruct obj; simpl; try contradiction; intros _;
    destruct (10 <? depth); reflexivity.
Qed.

Lemma deep_array items depth :
  depth <= 10 ->
  deepExtractAssetIds (JArr items) depth =
  flat_map (fun item =>
              match item with
              | JStr s => if 10 <=? String.length s then [s] else []
              | _ => deepExtractAssetIds item (S depth)
              end) items.
Proof.
  intros H. apply Nat.ltb_ge in H. simpl. rewrite H.
  apply flat_map_ext. intros [ | b | n | s | l | l ]; try reflexivity;
    symmetry; apply deep_primitive; exact I.
Qed.

Lemma deep_mapping entries depth :
  depth <= 10 ->
  deepExtractAssetIds (JObj entries) depth =
  match scanIdKeys entries with
  | [] => flat_map (fun kv => deepExtractAssetIds (snd kv) (S depth)) entries
  | ids => ids
  end.
Proof.
  intros H. apply Nat.ltb_ge in H. simpl. rewrite H.
  destruct (scanIdKeys entries); [ | reflexivity ].
  apply flat_map_ext. intros [k [ | b | n | s | l | l ]]; try reflexivity;
    symmetry; apply deep_primitive; exact I.
Qed.

Lemma length_pos_nonempty (s : string) :
  s <> "" -> (0 <? String.length s) = true.
Proof.
  destruct s; [ congruence | intros _; reflexivity ].
Qed.

Lemma scan_single key val :
  In key idKeys -> scanIdKeys [(key, val)] = idsOfValue val.
Proof.
  unfold idKeys, scanIdKeys, scanKeys.
  intros H; simpl in H.
  repeat (destruct H as [<- | H]; [ simpl; rewrite ?app_nil_r; reflexivity | ]).
  contradiction.
Qed.

(** *** The recognised response shapes *)

(** C5, as the code has it: each recognised shape resolves to the
    identifiers it carries, in order, provided the identifiers are
    non-empty text and, for the bare top-level array, at least ten
    characters long (a bare array element is accepted only from that
    length on). *)
Theorem resolve_known_shapes (X Y : string) :
  X <> "" -> Y <> "" ->
  resolve (JObj [("asset_id", JStr X)]) = [X]
  /\ resolve (JObj [("id", JStr X)]) = [X]
  /\ resolve (JObj [("results", JArr [JObj [("asset_id", JStr X)]])]) = [X]
  /\ resolve (JObj [("asset_ids", JArr [JStr X; JStr Y])]) = [X; Y]
  /\ (10 <= String.length X -> 10 <= String.length Y ->
      resolve (JArr [JStr X; JStr Y]) = [X; Y])
  /\ resolve (JObj [("data", JObj [("wrapper", JObj [("file",
                JObj [("id", JStr X)])])])]) = [X].
Proof.
  intros HX HY.
  assert (A : forall k, In k idKeys ->
              resolve (JObj [(k, JStr X)]) = [X]).
  { intros k Hk. unfold resolve. rewrite deep_mapping by lia.
    rewrite (scan_single _ _ Hk). simpl.
    rewrite (length_pos_nonempty X HX). reflexivity. }
  repeat split.
  - apply A. simpl; tauto.
  - apply A. simpl; tauto.
  - unfold resolve. rewrite deep_mapping by lia.
    change (scanIdKeys [("results", JArr [JObj [("asset_id", JStr X)]])])
      with (@nil string).
    unfold flat_map, snd. rewrite app_nil_r, deep_array by lia.
    unfold flat_map. rewrite app_nil_r, deep_mapping by lia.
    rewrite scan_single by (simpl; tauto). simpl.
    rewrite (length_pos_nonempty X HX). reflexivity.
  - unfold resolve. rewrite deep_mapping by lia.
    rewrite scan_single by (simpl; tauto). simpl.
    rewrite (length_pos_nonempty X HX), (length_pos_nonempty Y HY).
    reflexivity.
  - intros LX LY. apply Nat.leb_le in LX, LY.
    unfold resolve. rewrite deep_array by lia.
    unfold flat_map. rewrite LX, LY. reflexivity.
  - unfold resolve.
    do 3 (rewrite deep_mapping by lia;
          match goal with
          | |- context [scanIdKeys [(?k, JObj ?e)]] =>
              change (scanIdKeys [(k, JObj e)]) with (@nil string)
          end;
          unfold flat_map, snd; rewrite app_nil_r).
    rewrite deep_mapping by lia.
    rewrite scan_single by (simpl; tauto). simpl.
    rewrite (length_pos_nonempty X HX). reflexivity.
Qed.

Lemma resolve_known_shapes_witness :
  resolve (JObj [("asset_ids", JArr [JStr "asset-0000000001";
                                     JStr "asset-0000000002"])])
    = ["asset-0000000001"; "asset-0000000002"]
  /\ resolve (JArr [JStr "asset-0000000001"; JStr "asset-0000000002"])
    = ["asset-0000000001"; "asset-0000000002"].
Proof.
  destruct (resolve_known_shapes "asset-0000000001" "asset-0000000002")
    as (_ & _ & _ & H4 & H5 & _).
  - discriminate.
  - discriminate.
  - split; [ exact H4 | apply H5; cbn; lia ].
Defined.

(** C5 as worded: the literal bare array of the one-character texts
    X and Y resolves to nothing. *)
Lemma bare_array_of_short_texts_is_dropped :
  resolve (JArr [JStr "X"; JStr "Y"]) = []
  /\ resolve (JArr [JStr "X"; JStr "Y"]) <> ["X"; "Y"].
Proof.
  split; [ reflexivity | discriminate ].
Qed.

(** *** The recursion bound *)

Lemma scan_data_only v : scanIdKeys [("data", v)] = [].
Proof. reflexivity. Qed.

Lemma scan_id_then_data X v :
  scanIdKeys [("id", JStr X); ("data", v)] = idsOfValue (JStr X).
Proof.
  unfold scanIdKeys, scanKeys, idKeys.
  cbn -[idsOfValue]. apply app_nil_r.
Qed.

Lemma deep_nestedFrom X : X <> "" ->
  forall remaining cur pos depth,
    cur <= pos <= cur + remaining ->
    deepExtractAssetIds (nestedFrom remaining cur pos X) depth =
    if depth + (pos - cur) <=? 10 then [X] else [].
Proof.
  intros HX. pose proof (length_pos_nonempty X HX) as EX.
  induction remaining as [ | r IH ]; intros cur pos depth Hpos.
  - assert (cur = pos) as -> by lia.
    cbn [nestedFrom]. rewrite Nat.eqb_refl, Nat.sub_diag, Nat.add_0_r.
    destruct (Nat.leb_spec depth 10) as [Hd | Hd].
    + rewrite app_nil_r, deep_mapping, scan_single by (simpl; tauto || lia).
      simpl. rewrite EX. reflexivity.
    + apply deep_beyond_bound; lia.
  - cbn [nestedFrom].
    destruct (Nat.leb_spec depth 10) as [Hd | Hd].
    2:{ rewrite deep_beyond_bound by lia.
        destruct (Nat.leb_spec (depth + (pos - cur)) 10); [ lia | reflexivity ]. }
    destruct (Nat.eqb_spec cur pos) as [-> | Hne].
    + rewrite Nat.sub_diag, Nat.add_0_r.
      apply Nat.leb_le in Hd as Hd'. rewrite Hd'.
      cbn [app]. rewrite deep_mapping, scan_id_then_data by lia.
      simpl. rewrite EX. reflexivity.
    + cbn [app]. rewrite deep_mapping, scan_data_only by lia.
      unfold flat_map, snd. rewrite app_nil_r, IH by lia.
      replace (S depth + (pos - S cur)) with (depth + (pos - cur)) by lia.
      reflexivity.
Qed.

(** C6, as the code has it: the recursion stops beyond depth 10
    counted from the entry point (depth 0).  In a response nested
    [levels] deep whose only identifier is held by the mapping at
    depth [pos], the identifier is found exactly when [pos <= 10]; so
    with 15 levels, depths 11 and 12 are both out of reach.  A call
    beyond the bound returns the empty sequence; nothing is raised. *)
Theorem recursion_bound_is_ten (levels pos : nat) (X : string) :
  X <> "" -> pos <= levels ->
  resolve (nested levels pos X) = (if pos <=? 10 then [X] else [])
  /\ (forall obj depth, 10 < depth -> deepExtractAssetIds obj depth = []).
Proof.
  intros HX Hpos. split.
  - unfold resolve, nested.
    rewrite (deep_nestedFrom X HX) by lia.
    rewrite Nat.sub_0_r. reflexivity.
  - intros obj depth. apply deep_beyond_bound.
Qed.

Lemma recursion_bound_is_ten_witness :
  resolve (nested 15 10 "asset-0123456789") = ["asset-0123456789"]
  /\ resolve (nested 15 11 "asset-0123456789") = []
  /\ resolve (nested 15 12 "asset-0123456789") = [].
Proof.
  split; [ | split ].
  - destruct (recursion_bound_is_ten 15 10 "asset-0123456789") as [H _];
      [ discriminate | lia | exact H ].
  - destruct (recursion_bound_is_ten 15 11 "asset-0123456789") as [H _];
      [ discriminate | lia | exact H ].
  - destruct (recursion_bound_is_ten 15 12 "asset-0123456789") as [H _];
      [ discriminate | lia | exact H ].
Defined.

(** C6 as worded: an identifier held only at depth 12 of a response
    nested 15 levels deep is not found, so it is not the case that
    depth 12 is reached while depth 11 is not. *)
Lemma depth_12_is_not_found :
  ~ found_at_12_not_at_11 "asset-0123456789".
Proof.
  unfold found_at_12_not_at_11. intros [H _].
  vm_compute in H. discriminate H.
Qed.

(** *** Named-key scan before structural fallback *)

(** C10: at a mapping within the bound, the result is the named-key
    scan itself whenever that scan found anything, and the
    concatenated results of the nested values only when it found
    nothing; identifiers that sit deeper are then left out, as in the
    example. *)
Theorem fallback_only_when_scan_is_empty entries depth :
  depth <= 10 ->
  (scanIdKeys entries <> [] ->
   deepExtractAssetIds (JObj entries) depth = scanIdKeys entries)
  /\ (scanIdKeys entries = [] ->
      deepExtractAssetIds (JObj entries) depth =
      flat_map (fun kv => deepExtractAssetIds (snd kv) (S depth)) entries)
  /\ resolve idAndNested = ["x"].
Proof.
  intros Hd. split; [ | split ].
  - intros Hne. rewrite deep_mapping by exact Hd.
    destruct (scanIdKeys entries); [ congruence | reflexivity ].
  - intros He. rewrite deep_mapping by exact Hd.
    rewrite He. reflexivity.
  - reflexivity.
Qed.

Lemma fallback_only_when_scan_is_empty_witness :
  deepExtractAssetIds idAndNested 0 = ["x"]
  /\ deepExtractAssetIds
       (JObj [("nested", JObj [("asset_id", JStr "long-identifier-123")])]) 0
     = ["long-identifier-123"].
Proof.
  split.
  - destruct (fallback_only_when_scan_is_empty
                [("id", JStr "x");
                 ("nested", JObj [("asset_id", JStr "long-identifier-123")])]
                0) as (H & _ & _); [ lia | ].
    apply H. discriminate.
  - destruct (fallback_only_when_scan_is_empty
                [("nested", JObj [("asset_id", JStr "long-identifier-123")])]
                0) as (_ & H & _); [ lia | ].
    apply H. reflexivity.
Defined.

(** *** Short bare texts *)

Lemma lookup_In key entries val :
  lookup key entries = Some val -> In (key, val) entries.
Proof.
  induction entries as [ | [k v] rest IH ]; simpl; [ discriminate | ].
  destruct (String.eqb_spec key k) as [-> | _].
  - intros [= ->]. now left.
  - intros H. right. now apply IH.
Qed.

Lemma scanKeys_In keys entries s :
  In s (scanKeys keys entries) ->
  exists key val, In key keys /\ In (key, val) entries
                  /\ In s (idsOfValue val).
Proof.
  unfold scanKeys. rewrite in_flat_map. intros (key & Hk & Hs).
  destruct (lookup key entries) as [val | ] eqn:E; [ | contradiction ].
  exists key, val. auto using lookup_In.
Qed.

Lemma idKey_recognised key :
  In key idKeys -> existsb (String.eqb key) idKeys = true.
Proof.
  intros H. apply existsb_exists. exists key. split; [ exact H | ].
  apply String.eqb_refl.
Qed.

Lemma short_texts_come_from_id_keys obj :
  forall depth s,
    In s (deepExtractAssetIds obj depth) ->
    10 <= String.length s \/ In s (underIdKey obj).
Proof.
  induction obj as [ | b | n | t | items IH | entries IH ] using json_ind;
    intros depth s Hin;
    try (rewrite deep_primitive in Hin by exact I; contradiction).
  - destruct (Nat.leb_spec depth 10) as [Hd | Hd];
      [ | rewrite deep_beyond_bound in Hin by lia; contradiction ].
    rewrite deep_array in Hin by exact Hd.
    apply in_flat_map in Hin as (item & Hitem & Hs).
    rewrite Forall_forall in IH. specialize (IH item Hitem).
    assert (In s (deepExtractAssetIds item (S depth)) ->
            10 <= String.length s \/ In s (underIdKey (JArr items))) as K.
    { intros H. destruct (IH _ _ H) as [L | R]; [ now left | right ].
      simpl. apply in_flat_map. eauto. }
    destruct item; auto.
    destruct (Nat.leb_spec 10 (String.length s0)); [ | contradiction ].
    destruct Hs as [<- | []]. now left.
  - destruct (Nat.leb_spec depth 10) as [Hd | Hd];
      [ | rewrite deep_beyond_bound in Hin by lia; contradiction ].
    rewrite deep_mapping in Hin by exact Hd.
    destruct (scanIdKeys entries) as [ | i ids ] eqn:E.
    + apply in_flat_map in Hin as (kv & Hkv & Hs).
      rewrite Forall_forall in IH.
      destruct (IH kv Hkv _ _ Hs) as [L | R]; [ now left | right ].
      simpl. apply in_flat_map. exists kv. split; [ exact Hkv | ].
      apply in_or_app. now right.
    + rewrite <- E in Hin. apply scanKeys_In in Hin as (key & val & Hk & He & Hs).
      right. cbn [underIdKey]. apply in_flat_map. exists (key, val).
      split; [ exact He | ]. apply in_or_app. left.
      cbn [fst snd]. rewrite (idKey_recognised key Hk). exact Hs.
Qed.

(** C7: a text shorter than ten characters that is not held under a
    recognised key anywhere in the input is never returned, whatever
    arrays it appears in as a bare element. *)
Theorem short_bare_texts_are_excluded obj depth s :
  String.length s < 10 ->
  ~ In s (underIdKey obj) ->
  ~ In s (deepExtractAssetIds obj depth).
Proof.
  intros Hlen Hnot Hin.
  destruct (short_texts_come_from_id_keys obj depth s Hin); [ lia | auto ].
Qed.

Lemma short_bare_texts_are_excluded_witness :
  In (JStr "pending") [JStr "pending"; JStr "asset-0123456789"]
  /\ ~ In "pending"
       (resolve (JArr [JStr "pending"; JStr "asset-0123456789"])).
Proof.
  split; [ now left | ].
  apply (short_bare_texts_are_excluded
           (JArr [JStr "pending"; JStr "asset-0123456789"]) 0 "pending").
  - simpl. lia.
  - simpl. tauto.
Defined.

(** *** Multiplicity of the returned identifiers *)

Local Notation "'occ' l s" := (count_occ string_dec l s)
  (at level 10, l at level 9, s at level 9).

Lemma occ_flat_map_le {A} (f g : A -> list string) l s :
  Forall (fun a => occ (f a) s <= occ (g a) s) l ->
  occ (flat_map f l) s <= occ (flat_map g l) s.
Proof.
  induction 1 as [ | a l Ha _ IH ]; simpl; [ lia | ].
  rewrite !count_occ_app. lia.
Qed.

Lemma idKeys_distinct : NoDup idKeys.
Proof.
  unfold idKeys.
  repeat (constructor; [ simpl; intuition discriminate | ]).
  constructor.
Qed.

Lemma scanKeys_nil keys : scanKeys keys [] = [].
Proof.
  unfold scanKeys. induction keys; simpl; auto.
Qed.

Lemma scanKeys_skip keys k0 v0 rest :
  ~ In k0 keys -> scanKeys keys ((k0, v0) :: rest) = scanKeys keys rest.
Proof.
  unfold scanKeys. induction keys as [ | key keys IH ]; intros Hnot;
    [ reflexivity | ].
  simpl. destruct (String.eqb_spec key k0) as [-> | _].
  - exfalso. apply Hnot. now left.
  - f_equal. apply IH. intros H. apply Hnot. now right.
Qed.

Lemma scanKeys_head_once keys k0 v0 rest s :
  NoDup keys ->
  occ (scanKeys keys ((k0, v0) :: rest)) s
  <= occ (idsOfValue v0) s + occ (scanKeys keys rest) s.
Proof.
  induction 1 as [ | key keys Hnot Hnd IH ]; [ simpl; lia | ].
  change (scanKeys (key :: keys) ((k0, v0) :: rest))
    with ((match lookup key ((k0, v0) :: rest) with
           | Some val => idsOfValue val
           | None => []
           end) ++ scanKeys keys ((k0, v0) :: rest)).
  change (scanKeys (key :: keys) rest)
    with ((match lookup key rest with
           | Some val => idsOfValue val
           | None => []
           end) ++ scanKeys keys rest).
  rewrite !count_occ_app. simpl lookup.
  destruct (String.eqb_spec key k0) as [-> | _].
  - rewrite (scanKeys_skip keys k0 v0 rest Hnot). lia.
  - lia.
Qed.

Lemma ids_among_texts val s :
  occ (idsOfValue val) s <= occ (textValues val) s.
Proof.
  destruct val as [ | b | n | t | items | entries ]; simpl; try lia.
  - destruct (0 <? String.length t); simpl; [ | destruct string_dec ]; lia.
  - apply occ_flat_map_le, Forall_forall. intros v _.
    destruct v as [ | b | n | t | l | l ]; simpl; try lia.
    destruct (0 <? String.length t); simpl; [ | destruct string_dec ]; lia.
Qed.

Lemma scan_among_texts keys entries s :
  NoDup keys ->
  occ (scanKeys keys entries) s
  <= occ (flat_map (fun kv => textValues (snd kv)) entries) s.
Proof.
  intros Hnd. induction entries as [ | [k0 v0] rest IH ].
  - rewrite scanKeys_nil. simpl. lia.
  - pose proof (scanKeys_head_once keys k0 v0 rest s Hnd).
    pose proof (ids_among_texts v0 s).
    simpl flat_map. rewrite count_occ_app. simpl snd. lia.
Qed.

(** No text is returned more often than it occurs in the input. *)
Lemma resolved_among_texts obj :
  forall depth s,
    occ (deepExtractAssetIds obj depth) s <= occ (textValues obj) s.
Proof.
  induction obj as [ | b | n | t | items IH | entries IH ] using json_ind;
    intros depth s;
    try (rewrite deep_primitive by exact I; simpl; lia).
  - destruct (Nat.leb_spec depth 10) as [Hd | Hd];
      [ | rewrite deep_beyond_bound by lia; simpl; lia ].
    rewrite deep_array by exact Hd. simpl textValues.
    apply occ_flat_map_le. rewrite Forall_forall in IH |- *.
    intros item Hitem. specialize (IH item Hitem (S depth) s).
    destruct item as [ | b | n | t | l | l ]; auto.
    cbn [textValues].
    destruct (10 <=? String.length t); [ apply Nat.le_refl | ].
    apply Nat.le_0_l.
  - destruct (Nat.leb_spec depth 10) as [Hd | Hd];
      [ | rewrite deep_beyond_bound by lia; simpl; lia ].
    rewrite deep_mapping by exact Hd. simpl textValues.
    destruct (scanIdKeys entries) as [ | i ids ] eqn:E.
    + apply occ_flat_map_le. rewrite Forall_forall in IH |- *.
      intros kv Hkv. apply (IH kv Hkv).
    + rewrite <- E. apply scan_among_texts, idKeys_distinct.
Qed.

(** C4, as the code has it: the resolver keeps discovery order and
    removes nothing, so its result is free of duplicates whenever no
    text occurs twice in the input. *)
Theorem no_duplicates_from_distinct_texts obj depth :
  NoDup (textValues obj) -> NoDup (deepExtractAssetIds obj depth).
Proof.
  rewrite !(NoDup_count_occ string_dec). intros H s.
  pose proof (resolved_among_texts obj depth s). specialize (H s). lia.
Qed.

Lemma no_duplicates_from_distinct_texts_witness :
  NoDup (resolve (JObj [("asset_id", JStr "asset-0000000001");
                        ("id", JStr "asset-0000000002")])).
Proof.
  apply (no_duplicates_from_distinct_texts
           (JObj [("asset_id", JStr "asset-0000000001");
                  ("id", JStr "asset-0000000002")]) 0).
  simpl. repeat (constructor; [ simpl; intuition discriminate | ]).
  constructor.
Defined.

(** C4 as worded: one text under two recognised keys of a well-formed
    mapping is returned twice. *)
Lemma same_text_under_two_keys_is_repeated :
  wf sameIdTwice
  /\ resolve sameIdTwice = ["asset-0123456789"; "asset-0123456789"]
  /\ ~ NoDup (resolve sameIdTwice).
Proof.
  split; [ | split ].
  - simpl. repeat split.
    repeat (constructor; [ simpl; intuition discriminate | ]).
    constructor.
  - reflexivity.
  - intros H. change (resolve sameIdTwice)
      with ["asset-0123456789"; "asset-0123456789"] in H.
    inversion H as [ | x l Hnot _ ]. apply Hnot. now left.
Qed.

End ResolverFacts.

(* ===================================================================== *)
(** ** Properties of the POST handler *)
(* ===================================================================== *)

Module RouteFacts.
Import Upload Samples.

Section Handler.

Variable LYZR_API_KEY : string.
Variable JSON_parse : string -> option json.
Variable fetch : string -> list FileEntry -> result Response.

Lemma bind_Ok {A B} (c : result A) (k : A -> result B) b :
  bind c k = Ok b -> exists a, c = Ok a /\ k a = Ok b.
Proof.
  destruct c as [a | m]; simpl; [ eauto | discriminate ].
Qed.

Lemma failure_keeps_invariant total failed msg err st :
  successMatchesAssetIds (failure total failed msg err st).
Proof.
  unfold successMatchesAssetIds; simpl. split; [ discriminate | congruence ].
Qed.

Lemma okBranch_keeps_invariant nfiles fileEntries resp txt d r :
  okBranch nfiles fileEntries resp txt d = Ok r ->
  successMatchesAssetIds r.
Proof.
  unfold okBranch. intros H.
  apply bind_Ok in H as (results & _ & H).
  apply bind_Ok in H as (uploadedFiles & _ & H).
  apply bind_Ok in H as (dbg & _ & H).
  injection H as <-. unfold successMatchesAssetIds; simpl.
  destruct (deepExtractAssetIds d 0) as [ | i ids ]; simpl.
  - split; [ discriminate | intros H'; now contradiction H' ].
  - split; [ discriminate | reflexivity ].
Qed.

(** The [else] branch answers with a failure literal or throws. *)
Lemma failBranch_cases nfiles resp txt d :
  (exists msg err,
      failBranch nfiles resp txt d
      = Ok (failure nfiles nfiles msg err (status resp)))
  \/ (exists m, failBranch nfiles resp txt d = Throw m).
Proof.
  unfold failBranch, NextResponse_json. cbn [http_status failure].
  destruct ((status resp <? 200) || (599 <? status resp)); [ right; eauto | ].
  destruct ((status resp =? 204) || (status resp =? 205)
            || (status resp =? 304)); [ right; eauto | left; eauto ].
Qed.

(** C1: whatever the configured key, the request and the upstream
    do, the body returned by [POST] has [success] true exactly when
    its [asset_ids] list is non-empty. *)
Theorem POST_success_iff_asset_ids (request : NextRequest) :
  successMatchesAssetIds (snd (POST LYZR_API_KEY JSON_parse fetch request)).
Proof.
  unfold POST, tryPOST.
  destruct (String.eqb LYZR_API_KEY "");
    [ apply failure_keeps_invariant | ].
  destruct (formData request) as [fd | m];
    [ | apply failure_keeps_invariant ].
  destruct (List.length (getAll "files" fd) =? 0);
    [ apply failure_keeps_invariant | ].
  destruct (toFileEntries (getAll "files" fd)) as [fileEntries | m];
    [ | apply failure_keeps_invariant ].
  destruct (uploadLoop JSON_parse fetch ["file"; "files"] _ _)
    as [attempts [st | m]]; simpl; [ | apply failure_keeps_invariant ].
  destruct (response st) as [resp | ]; [ | apply failure_keeps_invariant ].
  destruct (ok resp).
  - destruct (okBranch _ _ _ _ _) as [r | m] eqn:E;
      [ | apply failure_keeps_invariant ].
    eapply okBranch_keeps_invariant; eassumption.
  - destruct (failBranch_cases (List.length (getAll "files" fd)) resp
                (responseText st) (data st)) as [(msg & err & ->) | (m & ->)];
      apply failure_keeps_invariant.
Qed.

Lemma ok_is_not_client_error resp :
  ok resp = true -> (status resp =? 422) || (status resp =? 400) = false.
Proof.
  unfold ok. rewrite andb_true_iff, !Nat.leb_le. intros [_ H].
  apply orb_false_iff. split; apply Nat.eqb_neq; lia.
Qed.

(** One turn of the loop, as far as the attempted names go. *)
Lemma uploadLoop_turn fieldName rest fileEntries st :
  fst (uploadLoop JSON_parse fetch (fieldName :: rest) fileEntries st) =
  match fetch fieldName fileEntries with
  | Ok resp =>
      match text resp with
      | Ok txt =>
          if (status resp =? 422) || (status resp =? 400)
          then fieldName ::
               fst (uploadLoop JSON_parse fetch rest fileEntries
                      {| response := Some resp; responseText := txt;
                         data := match JSON_parse txt with
                                 | Some d => d
                                 | None => JObj [("_raw", JStr txt)]
                                 end |})
          else [fieldName]
      | Throw _ => [fieldName]
      end
  | Throw _ => [fieldName]
  end.
Proof.
  simpl.
  destruct (fetch fieldName fileEntries) as [resp | m]; [ | reflexivity ].
  destruct (text resp) as [txt | m]; [ | reflexivity ].
  destruct (uploadLoop JSON_parse fetch rest fileEntries _) as [tr r].
  destruct (ok resp) eqn:Eok.
  - rewrite (ok_is_not_client_error resp Eok).
    match goal with
    | |- context [if ?b then _ else _] => destruct b
    end; reflexivity.
  - match goal with
    | |- context [if ?b then _ else _] => destruct b
    end; reflexivity.
Qed.

(** The field names tried, by the outcome of the first attempt: the
    second name is tried exactly when the first answer arrived with
    status 422 or 400. *)
Lemma uploadLoop_attempts fileEntries st :
  fst (uploadLoop JSON_parse fetch ["file"; "files"] fileEntries st) =
  match fetch "file" fileEntries with
  | Ok resp =>
      match text resp with
      | Ok _ =>
          if (status resp =? 422) || (status resp =? 400)
          then ["file"; "files"] else ["file"]
      | Throw _ => ["file"]
      end
  | Throw _ => ["file"]
  end.
Proof.
  rewrite uploadLoop_turn.
  destruct (fetch "file" fileEntries) as [resp | m]; [ | reflexivity ].
  destruct (text resp) as [txt | m]; [ | reflexivity ].
  destruct ((status resp =? 422) || (status resp =? 400));
    [ | reflexivity ].
  rewrite uploadLoop_turn.
  destruct (fetch "files" fileEntries) as [resp2 | m]; [ | reflexivity ].
  destruct (text resp2) as [txt2 | m]; [ | reflexivity ].
  destruct ((status resp2 =? 422) || (status resp2 =? 400)); reflexivity.
Qed.

(** The uploads [POST] attempts: none without a key or without
    files, otherwise what the loop tries. *)
Lemma POST_attempts request :
  fst (POST LYZR_API_KEY JSON_parse fetch request) =
  if String.eqb LYZR_API_KEY "" then [] else
  match formData request with
  | Throw _ => []
  | Ok fd =>
      if List.length (getAll "files" fd) =? 0 then [] else
      match toFileEntries (getAll "files" fd) with
      | Throw _ => []
      | Ok fileEntries =>
          match fetch "file" fileEntries with
          | Ok resp =>
              match text resp with
              | Ok _ =>
                  if (status resp =? 422) || (status resp =? 400)
                  then ["file"; "files"] else ["file"]
              | Throw _ => ["file"]
              end
          | Throw _ => ["file"]
          end
      end
  end.
Proof.
  unfold POST, tryPOST.
  destruct (String.eqb LYZR_API_KEY ""); [ reflexivity | ].
  destruct (formData request) as [fd | m]; [ | reflexivity ].
  destruct (List.length (getAll "files" fd) =? 0); [ reflexivity | ].
  destruct (toFileEntries (getAll "files" fd)) as [fileEntries | m];
    [ | reflexivity ].
  rewrite <- (uploadLoop_attempts fileEntries
                {| response := None; responseText := "";
                   data := JObj [] |}).
  destruct (uploadLoop _ _ _ _ _) as [attempts r]. reflexivity.
Qed.

(** C3, as the code has it: once the handler reaches the upload loop
    (the key is configured, the form carries a file and every file can
    be read), it attempts the upload exactly twice, under [file] and
    then under [files], if and only if the first attempt is answered
    with status 400 or 422; every other first outcome, a 2xx answer
    without resolvable ids included, leaves it at the one attempt under
    [file]. *)
Theorem second_attempt_iff_client_error request fd fileEntries :
  LYZR_API_KEY <> "" ->
  formData request = Ok fd ->
  getAll "files" fd <> [] ->
  toFileEntries (getAll "files" fd) = Ok fileEntries ->
  let attempts := fst (POST LYZR_API_KEY JSON_parse fetch request) in
  (attempts = ["file"; "files"] <->
   exists resp txt,
     fetch "file" fileEntries = Ok resp /\ text resp = Ok txt
     /\ (status resp = 400 \/ status resp = 422))
  /\ (attempts <> ["file"; "files"] -> attempts = ["file"]).
Proof.
  intros Hkey Hform Hfiles Hentries attempts. subst attempts.
  rewrite POST_attempts.
  destruct (String.eqb_spec LYZR_API_KEY "") as [E | _]; [ contradiction | ].
  rewrite Hform.
  destruct (getAll "files" fd) as [ | f fs ] eqn:Eg; [ contradiction | ].
  cbn [List.length Nat.eqb]. rewrite Hentries.
  destruct (fetch "file" fileEntries) as [resp | m].
  - destruct (text resp) as [txt | m] eqn:Et.
    + destruct ((status resp =? 422) || (status resp =? 400)) eqn:Hs.
      * split; [ | intros K; now contradiction K ].
        split; [ intros _ | reflexivity ].
        exists resp, txt. split; [ reflexivity | split; [ exact Et | ] ].
        apply orb_true_iff in Hs as [Hs | Hs]; apply Nat.eqb_eq in Hs; auto.
      * split; [ | reflexivity ].
        split; [ discriminate | ].
        intros (resp' & txt' & [= <-] & _ & Hst).
        apply orb_false_iff in Hs as [A B]. apply Nat.eqb_neq in A, B.
        destruct Hst; contradiction.
    + split; [ | reflexivity ].
      split; [ discriminate | ].
      intros (resp' & txt' & [= <-] & K & _). congruence.
  - split; [ | reflexivity ].
    split; [ discriminate | ]. intros (resp' & txt' & K & _). discriminate.
Qed.

End Handler.

Lemma second_attempt_iff_client_error_witness :
  fst (POST "key" parseEmptyOnly (upstreamStatus 422) oneCsv)
  = ["file"; "files"].
Proof.
  destruct (second_attempt_iff_client_error "key" parseEmptyOnly
              (upstreamStatus 422) oneCsv MoreSamples.csvFields
              MoreSamples.csvEntries)
    as [[_ H] _].
  - discriminate.
  - reflexivity.
  - discriminate.
  - reflexivity.
  - apply H. exists {| status := 422; text := Ok "{}" |}, "{}".
    split; [ reflexivity | split; [ reflexivity | right; reflexivity ] ].
Defined.

(** C3 as worded: a first attempt answered 200 with a body that
    resolves to no identifier is not followed by a second attempt under
    the field name [files]; the handler reports failure after the one
    upload. *)
Theorem ok_without_ids_is_not_retried :
  resolve (JObj []) = []
  /\ fst (POST "key" parseEmptyOnly upstreamEmptyOk oneCsv) = ["file"]
  /\ fst (POST "key" parseEmptyOnly upstreamEmptyOk oneCsv)
     <> ["file"; "files"]
  /\ success (body (snd (POST "key" parseEmptyOnly upstreamEmptyOk oneCsv)))
     = false.
Proof.
  split; [ reflexivity | split; [ reflexivity | split ] ];
    [ discriminate | reflexivity ].
Qed.

(** The retry that does happen: status 400 or 422 on the first attempt
    leads to a second one under [files]. *)
Example client_error_is_retried :
  fst (POST "key" parseEmptyOnly (upstreamStatus 422) oneCsv) = ["file"; "files"]
  /\ fst (POST "key" parseEmptyOnly (upstreamStatus 400) oneCsv) = ["file"; "files"]
  /\ fst (POST "key" parseEmptyOnly (upstreamStatus 500) oneCsv) = ["file"].
Proof.
  repeat split.
Qed.

End RouteFacts.

(* ===================================================================== *)
(** ** Properties of handleAnalyze *)
(* ===================================================================== *)

Module PageFacts.
Import Page Samples.

Section Analyze.

Variable JSON_parse : string -> option json.
Variable callAIAgent : string -> string -> list string -> result jsval.

Lemma has_assets (st : PageState) :
  assetIds st <> [] -> (List.length (assetIds st) =? 0) = false.
Proof.
  destruct (assetIds st); [ congruence | reflexivity ].
Qed.

(** The state after a call that resolved to [raw]. *)
Lemma handleAnalyze_resolved st raw :
  assetIds st <> [] ->
  callAIAgent ANALYZE_MESSAGE AGENT_ID (assetIds st) = Ok raw ->
  let started :=
    {| assetIds := assetIds st; analyzing := true; insights := None;
       pdfUrl := None; error := None;
       sessionId := if truthy (optProp raw "session_id")
                    then optProp raw "session_id" else sessionId st;
       activeAgentId := Some AGENT_ID; processing := true |} in
  let settled :=
    if truthy (optProp raw "success")
    then onSuccess JSON_parse raw started
    else onFailure raw started in
  insights (handleAnalyze JSON_parse callAIAgent st) = insights settled
  /\ pdfUrl (handleAnalyze JSON_parse callAIAgent st) = pdfUrl settled
  /\ error (handleAnalyze JSON_parse callAIAgent st) = error settled.
Proof.
  intros Hassets Hcall. unfold handleAnalyze.
  rewrite (has_assets st Hassets). cbn [assetIds setProcessing
    setActiveAgentId setPdfUrl setInsights setError setAnalyzing] in *.
  rewrite Hcall.
  destruct (truthy (optProp raw "session_id"));
    destruct (truthy (optProp raw "success")); repeat split.
Qed.

(** C2: when the agent reports success and its result is a text that
    [JSON.parse] rejects, the stored insights are the mapping whose
    only field is [executive_summary], holding the text verbatim; no
    error is set; and every list the display reads from it is empty,
    the row and column counts showing the placeholder. *)
Theorem unparsable_text_becomes_summary st raw (t : string) :
  assetIds st <> [] ->
  callAIAgent ANALYZE_MESSAGE AGENT_ID (assetIds st) = Ok raw ->
  truthy (optProp raw "success") = true ->
  optProp (optProp raw "response") "result" = Some (JStr t) ->
  JSON_parse t = None ->
  let st' := handleAnalyze JSON_parse callAIAgent st in
  insights st' = Some (JObj [("executive_summary", JStr t)])
  /\ optProp (insights st') "executive_summary" = Some (JStr t)
  /\ error st' = None
  /\ findings (insights st') = []
  /\ patterns (insights st') = []
  /\ anomalies (insights st') = []
  /\ recommendations (insights st') = []
  /\ keyMetrics (insights st') = []
  /\ totalRows (insights st') = Some (JStr "--")
  /\ totalColumns (insights st') = Some (JStr "--").
Proof.
  intros Hassets Hcall Hsucc Hres Hparse st'.
  destruct (handleAnalyze_resolved st raw Hassets Hcall) as (Hi & _ & He).
  fold st' in Hi, He. rewrite Hsucc in Hi, He.
  assert (insights st' = Some (JObj [("executive_summary", JStr t)])) as Hins.
  { rewrite Hi. unfold onSuccess. rewrite Hres, Hparse.
    destruct (optProp (optProp raw "module_outputs") "artifact_files")
      as [ [ | | | | [ | first rest ] | ] | ]; try reflexivity.
    destruct (truthy (optProp (Some first) "file_url")); reflexivity. }
  assert (error st' = None) as Herr.
  { rewrite He. unfold onSuccess.
    destruct (optProp (optProp raw "module_outputs") "artifact_files")
      as [ [ | | | | [ | first rest ] | ] | ]; try reflexivity.
    destruct (truthy (optProp (Some first) "file_url")); reflexivity. }
  rewrite Hins. repeat split; assumption.
Qed.

(** C8: when the agent's success flag is false (or otherwise falsy)
    the error is set to [raw.error] if present, else to
    [raw.response.message] if present, else to the generic text; no
    insights and no report URL are stored. *)
Theorem failure_sets_error_only st raw :
  assetIds st <> [] ->
  callAIAgent ANALYZE_MESSAGE AGENT_ID (assetIds st) = Ok raw ->
  truthy (optProp raw "success") = false ->
  let st' := handleAnalyze JSON_parse callAIAgent st in
  insights st' = None
  /\ pdfUrl st' = None
  /\ (forall e, optProp raw "error" = Some e -> e <> JNull ->
      error st' = Some e)
  /\ (forall m, missing (optProp raw "error") ->
      optProp (optProp raw "response") "message" = Some m ->
      m <> JNull -> error st' = Some m)
  /\ (missing (optProp raw "error") ->
      missing (optProp (optProp raw "response") "message") ->
      error st' = Some (JStr "Analysis failed. Please try again.")).
Proof.
  intros Hassets Hcall Hsucc st'.
  destruct (handleAnalyze_resolved st raw Hassets Hcall) as (Hi & Hp & He).
  fold st' in Hi, Hp, He. rewrite Hsucc in Hi, Hp, He.
  rewrite Hi, Hp, He. unfold onFailure, missing. cbn [insights pdfUrl error setError].
  split; [ reflexivity | split; [ reflexivity | ] ].
  split; [ | split ].
  - intros e -> Hne. destruct e; try reflexivity. congruence.
  - intros m [-> | ->] -> Hne; destruct m; try reflexivity; congruence.
  - intros [-> | ->] [-> | ->]; reflexivity.
Qed.

(** C9, as the code has it: once the agent reports success, the
    report URL is the [file_url] of the first artifact when that is
    truthy, whatever follows it in the sequence; a missing or empty
    sequence, or a first artifact without a usable [file_url],
    leaves the URL unset; in none of these cases is an error set. *)
Theorem report_url_is_first_artifact st raw :
  assetIds st <> [] ->
  callAIAgent ANALYZE_MESSAGE AGENT_ID (assetIds st) = Ok raw ->
  truthy (optProp raw "success") = true ->
  let st' := handleAnalyze JSON_parse callAIAgent st in
  let artifacts := optProp (optProp raw "module_outputs") "artifact_files" in
  (forall first rest,
      artifacts = Some (JArr (first :: rest)) ->
      truthy (optProp (Some first) "file_url") = true ->
      pdfUrl st' = optProp (Some first) "file_url")
  /\ (forall first rest,
      artifacts = Some (JArr (first :: rest)) ->
      truthy (optProp (Some first) "file_url") = false ->
      pdfUrl st' = None)
  /\ (artifacts = Some (JArr []) -> pdfUrl st' = None)
  /\ ((forall l, artifacts <> Some (JArr l)) -> pdfUrl st' = None)
  /\ error st' = None.
Proof.
  intros Hassets Hcall Hsucc st' artifacts.
  destruct (handleAnalyze_resolved st raw Hassets Hcall) as (_ & Hp & He).
  fold st' in Hp, He. rewrite Hsucc in Hp, He.
  rewrite Hp, He. unfold onSuccess. fold artifacts.
  repeat match goal with |- _ /\ _ => split end.
  - intros first rest -> Hurl. rewrite Hurl. reflexivity.
  - intros first rest -> Hurl. rewrite Hurl. reflexivity.
  - intros ->. reflexivity.
  - intros Hnot.
    destruct artifacts as [ [ | | | | l | ] | ]; try reflexivity.
    now contradiction (Hnot l).
  - destruct artifacts as [ [ | | | | [ | first rest ] | ] | ];
      try reflexivity.
    destruct (truthy (optProp (Some first) "file_url")); reflexivity.
Qed.

End Analyze.

Lemma failure_sets_error_only_witness :
  error (handleAnalyze parseEmptyOnly (agentReturns failedResponse)
           readyState) = Some (JStr "X")
  /\ insights (handleAnalyze parseEmptyOnly (agentReturns failedResponse)
                 readyState) = None.
Proof.
  destruct (failure_sets_error_only parseEmptyOnly
              (agentReturns failedResponse) readyState
              (Some failedResponse)) as (Hi & _ & He & _).
  - discriminate.
  - reflexivity.
  - reflexivity.
  - split; [ apply He; [ reflexivity | discriminate ] | exact Hi ].
Defined.

Lemma report_url_is_first_artifact_witness :
  pdfUrl (handleAnalyze parseEmptyOnly (agentReturns successWithArtifacts)
            readyState) = Some (JStr "U1").
Proof.
  destruct (report_url_is_first_artifact parseEmptyOnly
              (agentReturns successWithArtifacts) readyState
              (Some successWithArtifacts)) as (H & _).
  - discriminate.
  - reflexivity.
  - reflexivity.
  - apply (H (JObj [("file_url", JStr "U1")])
             [JObj [("file_url", JStr "U2")]]); reflexivity.
Defined.

(** C9 as worded: on a response whose success flag is false the first
    artifact's [file_url] is present and yet no report URL is set. *)
Lemma no_report_url_without_success :
  optProp (optProp (Some failureWithArtifacts) "module_outputs")
    "artifact_files" = Some twoArtifacts
  /\ pdfUrl (handleAnalyze parseEmptyOnly (agentReturns failureWithArtifacts)
               readyState) = None
  /\ pdfUrl (handleAnalyze parseEmptyOnly (agentReturns failureWithArtifacts)
               readyState) <> Some (JStr "U1").
Proof.
  split; [ reflexivity | split; [ reflexivity | discriminate ] ].
Qed.

Lemma unparsable_text_becomes_summary_witness :
  insights (handleAnalyze parseEmptyOnly (agentReturns notJsonResponse)
              readyState)
  = Some (JObj [("executive_summary", JStr "not json")]).
Proof.
  apply (unparsable_text_becomes_summary parseEmptyOnly
           (agentReturns notJsonResponse) readyState
           (Some notJsonResponse) "not json").
  - discriminate.
  - reflexivity.
  - reflexivity.
  - reflexivity.
  - reflexivity.
Defined.

End PageFacts.

(* ===================================================================== *)
(** ** Further properties of the resolver *)
(* ===================================================================== *)

Module ResolverMore.
Import Upload Samples ResolverFacts.

Lemma nonEmptyText_nonempty v s : In s (nonEmptyText v) -> s <> "".
Proof.
  destruct v as [ | b | n | t | l | l ]; simpl; try contradiction.
  destruct t; simpl; [ contradiction | ].
  intros [<- | []]. discriminate.
Qed.

Lemma idsOfValue_nonempty v s : In s (idsOfValue v) -> s <> "".
Proof.
  destruct v as [ | b | n | t | items | l ]; simpl; try contradiction.
  - destruct t; simpl; [ contradiction | ].
    intros [<- | []]. discriminate.
  - rewrite in_flat_map. intros (x & _ & Hx).
    eapply nonEmptyText_nonempty; eassumption.
Qed.

(** X1: the resolver never returns the empty text, at any depth and for
    any input. *)
Theorem resolved_ids_are_nonempty obj :
  forall depth s, In s (deepExtractAssetIds obj depth) -> s <> "".
Proof.
  induction obj as [ | b | n | t | items IH | entries IH ] using json_ind;
    intros depth s Hin;
    try (rewrite deep_primitive in Hin by exact I; contradiction).
  - destruct (Nat.leb_spec depth 10) as [Hd | Hd];
      [ | rewrite deep_beyond_bound in Hin by lia; contradiction ].
    rewrite deep_array in Hin by exact Hd.
    apply in_flat_map in Hin as (item & Hitem & Hs).
    rewrite Forall_forall in IH. specialize (IH item Hitem (S depth) s).
    destruct item as [ | b | n | t | l | l ]; auto.
    destruct (Nat.leb_spec 10 (String.length t)) as [Hlen | ];
      [ | contradiction ].
    destruct Hs as [<- | []]. intros ->. simpl in Hlen. lia.
  - destruct (Nat.leb_spec depth 10) as [Hd | Hd];
      [ | rewrite deep_beyond_bound in Hin by lia; contradiction ].
    rewrite deep_mapping in Hin by exact Hd.
    destruct (scanIdKeys entries) as [ | i ids ] eqn:E.
    + apply in_flat_map in Hin as (kv & Hkv & Hs).
      rewrite Forall_forall in IH. exact (IH kv Hkv _ _ Hs).
    + rewrite <- E in Hin.
      apply scanKeys_In in Hin as (key & val & _ & _ & Hs).
      eapply idsOfValue_nonempty; eassumption.
Qed.

Lemma resolved_ids_are_nonempty_witness :
  "x" <> "" /\ resolve idAndNested = ["x"].
Proof.
  split; [ | reflexivity ].
  apply (resolved_ids_are_nonempty idAndNested 0 "x"). simpl. now left.
Defined.

(** X2: every identifier returned is a text value of the input; in
    particular an input holding no text resolves to nothing. *)
Theorem resolved_ids_occur_in_input obj depth s :
  In s (deepExtractAssetIds obj depth) -> In s (textValues obj).
Proof.
  intros Hin.
  apply (count_occ_In string_dec) in Hin.
  apply (count_occ_In string_dec).
  pose proof (resolved_among_texts obj depth s). lia.
Qed.

Lemma resolved_ids_occur_in_input_witness :
  In "long-identifier-123"
     (textValues (JObj [("nested",
                         JObj [("asset_id", JStr "long-identifier-123")])])).
Proof.
  apply (resolved_ids_occur_in_input
           (JObj [("nested", JObj [("asset_id", JStr "long-identifier-123")])])
           0 "long-identifier-123").
  simpl. now left.
Defined.

(** X3: resolving an array is resolving its parts in order: the result
    for a concatenation is the concatenation of the results. *)
Theorem resolve_array_append items1 items2 depth :
  deepExtractAssetIds (JArr (items1 ++ items2)) depth =
  deepExtractAssetIds (JArr items1) depth
    ++ deepExtractAssetIds (JArr items2) depth.
Proof.
  destruct (Nat.leb_spec depth 10) as [Hd | Hd].
  - rewrite !deep_array by exact Hd. apply flat_map_app.
  - rewrite !deep_beyond_bound by lia. reflexivity.
Qed.




End ResolverMore.

(* ===================================================================== *)
(** ** Further properties of the POST handler *)
(* ===================================================================== *)

Module RouteMore.
Import Upload Samples MoreSamples RouteFacts.

Section Handler.

Variable LYZR_API_KEY : string.
Variable JSON_parse : string -> option json.
Variable fetch : string -> list FileEntry -> result Response.

(** What the loop stores in [data] for a body text. *)
Local Notation "'parsed' txt" :=
  (match JSON_parse txt with
   | Some d => d
   | None => JObj [("_raw", JStr txt)]
   end) (at level 10, txt at level 9).

Lemma substring_length n s : String.length (substring 0 n s) <= n.
Proof.
  revert s. induction n as [ | n IH ]; intros [ | c s ]; simpl; try lia.
  specialize (IH s). lia.
Qed.

(** The shape of a body produced by the 2xx branch. *)
Lemma okBranch_shape nfiles fileEntries resp txt d r :
  okBranch nfiles fileEntries resp txt d = Ok r ->
  http_status r = 200
  /\ error (body r) = None
  /\ asset_ids (body r) = deepExtractAssetIds d 0
  /\ success (body r) = (0 <? List.length (deepExtractAssetIds d 0))
  /\ successful_uploads (body r) = List.length (asset_ids (body r))
  /\ failed_uploads (body r) =
     (if success (body r) then 0 else nfiles)
  /\ (success (body r) = true -> _debug (body r) = None)
  /\ (forall dbg, _debug (body r) = Some dbg ->
        raw_response dbg = substring 0 500 txt
        /\ debug_status dbg = status resp).
Proof.
  unfold okBranch. intros H.
  apply bind_Ok in H as (results & _ & H).
  apply bind_Ok in H as (uploadedFiles & _ & H).
  apply bind_Ok in H as (dbg & Hdbg & H).
  injection H as <-. cbn [body http_status error asset_ids success
    successful_uploads failed_uploads _debug].
  repeat match goal with |- _ /\ _ => split end; try reflexivity.
  - intros Hs.
    destruct (List.length (deepExtractAssetIds d 0)); [ discriminate | ].
    simpl in Hdbg. congruence.
  - intros dbg' ->.
    destruct (List.length (deepExtractAssetIds d 0) =? 0);
      [ | discriminate ].
    apply bind_Ok in Hdbg as (keys & _ & Hdbg).
    injection Hdbg as <-. split; reflexivity.
Qed.

(** Every response of [POST] is one of the failure literals or comes out
    of the 2xx branch. *)
Lemma POST_cases request :
  (exists total failed msg err st,
      snd (POST LYZR_API_KEY JSON_parse fetch request)
      = failure total failed msg err st)
  \/ (exists nfiles fileEntries resp txt d,
         okBranch nfiles fileEntries resp txt d
         = Ok (snd (POST LYZR_API_KEY JSON_parse fetch request))).
Proof.
  unfold POST, tryPOST.
  destruct (String.eqb LYZR_API_KEY ""); [ left; repeat eexists | ].
  destruct (formData request) as [fd | m]; [ | left; repeat eexists ].
  destruct (List.length (getAll "files" fd) =? 0); [ left; repeat eexists | ].
  destruct (toFileEntries (getAll "files" fd)) as [fileEntries | m];
    [ | left; repeat eexists ].
  destruct (uploadLoop JSON_parse fetch ["file"; "files"] _ _)
    as [attempts [st | m]]; simpl; [ | left; repeat eexists ].
  destruct (response st) as [resp | ]; [ | left; repeat eexists ].
  destruct (ok resp).
  - destruct (okBranch _ _ _ _ _) as [r | m] eqn:E;
      [ | left; repeat eexists ].
    right. repeat eexists. exact E.
  - destruct (failBranch_cases (List.length (getAll "files" fd)) resp
                (responseText st) (data st)) as [(msg & err & ->) | (m & ->)];
      left; repeat eexists.
Qed.

(** X5: a response that reports success is an HTTP 200 without an
    [error] field and without debug data. *)
Theorem success_is_a_clean_200 request :
  let r := snd (POST LYZR_API_KEY JSON_parse fetch request) in
  success (body r) = true ->
  http_status r = 200 /\ error (body r) = None /\ _debug (body r) = None.
Proof.
  intros r Hs. subst r.
  destruct (POST_cases request)
    as [(total & failed & msg & err & st & E)
       | (nfiles & fileEntries & resp & txt & d & E)].
  - rewrite E in Hs. discriminate.
  - destruct (okBranch_shape _ _ _ _ _ _ E) as (H1 & H2 & _ & _ & _ & _ & H7 & _).
    auto.
Qed.

(** X6: in every response the count of successful uploads is the number
    of asset ids returned, and a response that reports success counts no
    failed upload. *)
Theorem upload_counts_follow_asset_ids request :
  let r := snd (POST LYZR_API_KEY JSON_parse fetch request) in
  successful_uploads (body r) = List.length (asset_ids (body r))
  /\ (success (body r) = true -> failed_uploads (body r) = 0).
Proof.
  intros r. subst r.
  destruct (POST_cases request)
    as [(total & failed & msg & err & st & E)
       | (nfiles & fileEntries & resp & txt & d & E)].
  - rewrite E. split; [ reflexivity | discriminate ].
  - destruct (okBranch_shape _ _ _ _ _ _ E) as (_ & _ & _ & _ & H5 & H6 & _).
    split; [ exact H5 | ]. intros Hs. rewrite H6, Hs. reflexivity.
Qed.

(** X7: debug data is attached only to a failed HTTP 200 response, and
    the raw body it quotes is cut to at most 500 characters. *)
Theorem debug_only_on_empty_resolution request dbg :
  let r := snd (POST LYZR_API_KEY JSON_parse fetch request) in
  _debug (body r) = Some dbg ->
  success (body r) = false
  /\ http_status r = 200
  /\ String.length (raw_response dbg) <= 500.
Proof.
  intros r Hd. subst r.
  destruct (POST_cases request)
    as [(total & failed & msg & err & st & E)
       | (nfiles & fileEntries & resp & txt & d & E)].
  - rewrite E in Hd. discriminate.
  - destruct (okBranch_shape _ _ _ _ _ _ E)
      as (H1 & _ & _ & _ & _ & _ & H7 & H8).
    split; [ | split; [ exact H1 | ] ].
    + destruct (success _); [ | reflexivity ].
      rewrite H7 in Hd by reflexivity. discriminate.
    + destruct (H8 dbg Hd) as [-> _]. apply substring_length.
Qed.

(** X8: the upstream is tried at most twice, never under [files] before
    [file]; and no response reports success without an attempt. *)
Theorem attempts_are_file_then_files request :
  let attempts := fst (POST LYZR_API_KEY JSON_parse fetch request) in
  (attempts = [] \/ attempts = ["file"] \/ attempts = ["file"; "files"])
  /\ (success (body (snd (POST LYZR_API_KEY JSON_parse fetch request))) = true
      -> attempts <> []).
Proof.
  intros attempts. subst attempts. split.
  - rewrite POST_attempts.
    repeat match goal with
           | |- context [if ?b then _ else _] => destruct b
           | |- context [match ?x with Ok _ => _ | Throw _ => _ end] =>
               destruct x
           end; auto.
  - unfold POST, tryPOST.
    destruct (String.eqb LYZR_API_KEY ""); [ discriminate | ].
    destruct (formData request) as [fd | m]; [ | discriminate ].
    destruct (List.length (getAll "files" fd) =? 0); [ discriminate | ].
    destruct (toFileEntries (getAll "files" fd)) as [fileEntries | m];
      [ | discriminate ].
    pose proof (uploadLoop_turn JSON_parse fetch "file" ["files"] fileEntries
                  {| response := None; responseText := ""; data := JObj [] |})
      as Hturn.
    destruct (uploadLoop JSON_parse fetch ["file"; "files"] _ _)
      as [attempts r]. simpl in Hturn |- *. intros _ ->.
    repeat match type of Hturn with
           | context [if ?b then _ else _] => destruct b
           | context [match ?x with Ok _ => _ | Throw _ => _ end] =>
               destruct x
           end; discriminate.
Qed.

Lemma client_error_is_not_ok resp :
  (status resp =? 422) || (status resp =? 400) = true -> ok resp = false.
Proof.
  intros H. destruct (ok resp) eqn:E; [ | reflexivity ].
  rewrite (ok_is_not_client_error resp E) in H. discriminate.
Qed.

Lemma loop_stops fieldName rest fileEntries st resp txt :
  fetch fieldName fileEntries = Ok resp ->
  text resp = Ok txt ->
  (status resp =? 422) || (status resp =? 400) = false ->
  uploadLoop JSON_parse fetch (fieldName :: rest) fileEntries st =
  ([fieldName],
   Ok {| response := Some resp; responseText := txt; data := parsed txt |}).
Proof.
  intros Hf Ht Hs. simpl. rewrite Hf, Ht, Hs.
  destruct (ok resp); [ | reflexivity ].
  destruct (0 <? _); reflexivity.
Qed.

Lemma loop_continues fieldName rest fileEntries st resp txt :
  fetch fieldName fileEntries = Ok resp ->
  text resp = Ok txt ->
  (status resp =? 422) || (status resp =? 400) = true ->
  uploadLoop JSON_parse fetch (fieldName :: rest) fileEntries st =
  (fieldName ::
     fst (uploadLoop JSON_parse fetch rest fileEntries
            {| response := Some resp; responseText := txt;
               data := parsed txt |}),
   snd (uploadLoop JSON_parse fetch rest fileEntries
          {| response := Some resp; responseText := txt;
             data := parsed txt |})).
Proof.
  intros Hf Ht Hs. simpl. rewrite Hf, Ht, Hs.
  rewrite (client_error_is_not_ok resp Hs).
  destruct (uploadLoop JSON_parse fetch rest fileEntries _). reflexivity.
Qed.

Section Uploading.

(** A request that reaches the upload loop: the key is configured, the
    form carries at least one [files] field and every file can be read. *)
Variable request : NextRequest.
Variable fd : list (string * FormDataEntryValue).
Variable fileEntries : list FileEntry.
Hypothesis Hkey : LYZR_API_KEY <> "".
Hypothesis Hform : formData request = Ok fd.
Hypothesis Hfiles : getAll "files" fd <> [].
Hypothesis Hentries : toFileEntries (getAll "files" fd) = Ok fileEntries.

Local Notation "'nfiles'" := (List.length (getAll "files" fd)).

Lemma POST_uploading :
  POST LYZR_API_KEY JSON_parse fetch request =
  (fst (uploadLoop JSON_parse fetch ["file"; "files"] fileEntries
          {| response := None; responseText := ""; data := JObj [] |}),
   match
     (st <- snd (uploadLoop JSON_parse fetch ["file"; "files"] fileEntries
                   {| response := None; responseText := "";
                      data := JObj [] |}) ;;
      match response st with
      | None =>
          Ok (failure nfiles nfiles "Failed to connect to upload API"
                (JStr "No response received from upload API") 500)
      | Some resp =>
          if ok resp
          then okBranch nfiles fileEntries resp (responseText st) (data st)
          else failBranch nfiles resp (responseText st) (data st)
      end)
   with
   | Ok resp => resp
   | Throw m => failure 0 0 "Server error during upload" (JStr m) 500
   end).
Proof.
  unfold POST, tryPOST.
  destruct (String.eqb_spec LYZR_API_KEY "") as [E | _]; [ contradiction | ].
  rewrite Hform.
  destruct (getAll "files" fd) as [ | f fs ] eqn:Eg; [ contradiction | ].
  cbn [List.length Nat.eqb]. rewrite Hentries.
  destruct (uploadLoop JSON_parse fetch ["file"; "files"] fileEntries _).
  reflexivity.
Qed.

(** X9: a first answer with a 2xx status whose body is not JSON ends
    the upload after that one attempt with an HTTP 200 failure: no asset
    ids, every file counted as failed, and debug data naming the
    stand-in key [_raw], the first 500 characters of the body and the
    upstream status. *)
Theorem unparsable_ok_body_reports_failure resp txt :
  fetch "file" fileEntries = Ok resp ->
  text resp = Ok txt ->
  ok resp = true ->
  JSON_parse txt = None ->
  POST LYZR_API_KEY JSON_parse fetch request =
  (["file"],
   {| body :=
        {| success := false; asset_ids := []; files := [];
           total_files := jnat nfiles; successful_uploads := 0;
           failed_uploads := nfiles;
           message := "Upload completed but no asset IDs found in response";
           _debug := Some {| raw_keys := ["_raw"];
                             raw_response := substring 0 500 txt;
                             debug_status := status resp |};
           error := None |};
      http_status := 200 |}).
Proof.
  intros Hf Ht Hok Hp.
  rewrite POST_uploading.
  rewrite (loop_stops "file" ["files"] fileEntries _ resp txt Hf Ht
             (ok_is_not_client_error resp Hok)).
  cbn [fst snd bind response responseText data]. rewrite Hok, Hp.
  reflexivity.
Qed.

(** The statuses [NextResponse.json] lets the [else] branch pass on. *)
Lemma failBranch_passes_status n resp txt d :
  ok resp = false ->
  200 <= status resp <= 599 ->
  status resp <> 304 ->
  failBranch n resp txt d =
  Ok (failure n n
        ("Upload failed with status " ++ showNat (status resp))%string
        (orElseJ (orElse (optProp (Some d) "detail")
                    (orElse (optProp (Some d) "message")
                       (optProp (Some d) "error")))
                 (JStr (substring 0 300 txt)))
        (status resp)).
Proof.
  intros Hok Hrange H304. unfold failBranch, NextResponse_json.
  cbn [http_status failure].
  assert (299 < status resp) as Hgt.
  { unfold ok in Hok. apply andb_false_iff in Hok as [Hok | Hok].
    - apply Nat.leb_gt in Hok. lia.
    - apply Nat.leb_gt in Hok. lia. }
  replace ((status resp <? 200) || (599 <? status resp)) with false
    by (symmetry; apply orb_false_iff; split; apply Nat.ltb_ge; lia).
  replace ((status resp =? 204) || (status resp =? 205)
           || (status resp =? 304)) with false
    by (symmetry; rewrite !orb_false_iff; repeat split;
        apply Nat.eqb_neq; lia).
  reflexivity.
Qed.

Lemma failBranch_refuses_status n resp txt d :
  status resp < 200 \/ 599 < status resp \/ status resp = 304 ->
  exists m, failBranch n resp txt d = Throw m.
Proof.
  intros H. unfold failBranch, NextResponse_json.
  cbn [http_status failure].
  destruct ((status resp <? 200) || (599 <? status resp)) eqn:E1;
    [ eauto | ].
  destruct ((status resp =? 204) || (status resp =? 205)
            || (status resp =? 304)) eqn:E2; [ eauto | ].
  exfalso. apply orb_false_iff in E1 as [A B].
  apply Nat.ltb_ge in A, B.
  rewrite !orb_false_iff in E2. destruct E2 as [_ C].
  apply Nat.eqb_neq in C. lia.
Qed.

(** X10: a first answer that is neither 2xx nor 400/422 ends the upload
    after that one attempt with a failure.  When its status is one a
    response may carry with a body (200-599, not 304) the response
    passes that status on and counts every file as failed, and for an
    upstream body that is not JSON the error text is the first 300
    characters of that body.  For 304 or a status outside 200-599
    building the response throws, and the handler answers with the HTTP
    500 server error instead. *)
Theorem upstream_error_status_is_mirrored resp txt :
  fetch "file" fileEntries = Ok resp ->
  text resp = Ok txt ->
  ok resp = false ->
  (status resp =? 422) || (status resp =? 400) = false ->
  let out := POST LYZR_API_KEY JSON_parse fetch request in
  fst out = ["file"]
  /\ success (body (snd out)) = false
  /\ asset_ids (body (snd out)) = []
  /\ (200 <= status resp <= 599 -> status resp <> 304 ->
      http_status (snd out) = status resp
      /\ failed_uploads (body (snd out)) = nfiles
      /\ message (body (snd out))
         = ("Upload failed with status " ++ showNat (status resp))%string
      /\ (JSON_parse txt = None ->
          error (body (snd out)) = Some (JStr (substring 0 300 txt))))
  /\ (status resp < 200 \/ 599 < status resp \/ status resp = 304 ->
      http_status (snd out) = 500
      /\ failed_uploads (body (snd out)) = 0
      /\ message (body (snd out)) = "Server error during upload").
Proof.
  intros Hf Ht Hok Hs out. subst out.
  rewrite POST_uploading.
  rewrite (loop_stops "file" ["files"] fileEntries _ resp txt Hf Ht Hs).
  cbn [fst snd bind response responseText data]. rewrite Hok.
  split; [ reflexivity | ].
  destruct (failBranch_cases nfiles resp txt (parsed txt))
    as [(msg & err & E) | (m & E)].
  - rewrite E. split; [ reflexivity | split; [ reflexivity | ] ]. split.
    + intros Hrange H304.
      rewrite (failBranch_passes_status nfiles resp txt (parsed txt)
                 Hok Hrange H304) in E.
      injection E as <- <-.
      repeat match goal with |- _ /\ _ => split end; try reflexivity.
      intros Hp. rewrite Hp. reflexivity.
    + intros Hbad.
      destruct (failBranch_refuses_status nfiles resp txt (parsed txt) Hbad)
        as [m E'].
      congruence.
  - rewrite E. split; [ reflexivity | split; [ reflexivity | ] ]. split.
    + intros Hrange H304.
      rewrite (failBranch_passes_status nfiles resp txt (parsed txt)
                 Hok Hrange H304) in E.
      discriminate.
    + intros _. repeat split.
Qed.

(** X11: when the first answer is 400 or 422 the second attempt alone
    decides the response.  If it too is not 2xx, exactly the two
    attempts have been made and the response is a failure: with the
    second status and its message when that status is one a response may
    carry with a body (200-599, not 304), and the HTTP 500 server error
    otherwise. *)
Theorem second_failure_status_is_mirrored resp1 txt1 resp2 txt2 :
  fetch "file" fileEntries = Ok resp1 ->
  text resp1 = Ok txt1 ->
  (status resp1 =? 422) || (status resp1 =? 400) = true ->
  fetch "files" fileEntries = Ok resp2 ->
  text resp2 = Ok txt2 ->
  ok resp2 = false ->
  let out := POST LYZR_API_KEY JSON_parse fetch request in
  fst out = ["file"; "files"]
  /\ success (body (snd out)) = false
  /\ (200 <= status resp2 <= 599 -> status resp2 <> 304 ->
      http_status (snd out) = status resp2
      /\ message (body (snd out))
         = ("Upload failed with status " ++ showNat (status resp2))%string)
  /\ (status resp2 < 200 \/ 599 < status resp2 \/ status resp2 = 304 ->
      http_status (snd out) = 500
      /\ message (body (snd out)) = "Server error during upload").
Proof.
  intros Hf1 Ht1 Hs1 Hf2 Ht2 Hok2 out. subst out.
  rewrite POST_uploading.
  rewrite (loop_continues "file" ["files"] fileEntries _ resp1 txt1 Hf1 Ht1 Hs1).
  assert (uploadLoop JSON_parse fetch ["files"] fileEntries
            {| response := Some resp1; responseText := txt1;
               data := parsed txt1 |}
          = (["files"],
             Ok {| response := Some resp2; responseText := txt2;
                   data := parsed txt2 |})) as ->.
  { destruct ((status resp2 =? 422) || (status resp2 =? 400)) eqn:Hs2.
    - rewrite (loop_continues "files" [] fileEntries _ resp2 txt2 Hf2 Ht2 Hs2).
      reflexivity.
    - apply (loop_stops "files" [] fileEntries _ resp2 txt2 Hf2 Ht2 Hs2). }
  cbn [fst snd bind response responseText data]. rewrite Hok2.
  split; [ reflexivity | ].
  destruct (failBranch_cases nfiles resp2 txt2 (parsed txt2))
    as [(msg & err & E) | (m & E)].
  - rewrite E. split; [ reflexivity | ]. split.
    + intros Hrange H304.
      rewrite (failBranch_passes_status nfiles resp2 txt2 (parsed txt2)
                 Hok2 Hrange H304) in E.
      injection E as <- <-. split; reflexivity.
    + intros Hbad.
      destruct (failBranch_refuses_status nfiles resp2 txt2 (parsed txt2) Hbad)
        as [m E'].
      congruence.
  - rewrite E. split; [ reflexivity | ]. split.
    + intros Hrange H304.
      rewrite (failBranch_passes_status nfiles resp2 txt2 (parsed txt2)
                 Hok2 Hrange H304) in E.
      discriminate.
    + intros _. split; reflexivity.
Qed.

(** The name given to every file descriptor built from the asset ids. *)
Local Notation "'firstName'" :=
  (JStr (match fileEntries with e :: _ => name e | [] => "" end)).

Lemma okBranch_plain_mapping resp txt props :
  truthy (lookup "results" props) = false ->
  truthy (lookup "files" props) = false ->
  deepExtractAssetIds (JObj props) 0 <> [] ->
  exists r,
    okBranch nfiles fileEntries resp txt (JObj props) = Ok r
    /\ http_status r = 200
    /\ success (body r) = true
    /\ asset_ids (body r) = deepExtractAssetIds (JObj props) 0
    /\ files (body r)
       = map (fun id => {| uf_asset_id := JStr id; uf_file_name := firstName;
                           uf_success := JBool true; uf_error := None |})
             (deepExtractAssetIds (JObj props) 0)
    /\ message (body r)
       = ("Successfully uploaded "
            ++ showNat (List.length (deepExtractAssetIds (JObj props) 0))
            ++ " file(s)")%string.
Proof.
  intros Hr Hf Hids. unfold okBranch.
  cbn [propStrict prop bind]. unfold orElse at 1. rewrite Hr.
  unfold orElse at 1. rewrite Hf.
  destruct (deepExtractAssetIds (JObj props) 0) as [ | i ids ] eqn:E;
    [ contradiction | ].
  cbn [List.length Nat.eqb bind Nat.ltb Nat.leb].
  eexists. split; [ reflexivity | ].
  cbn [body http_status success asset_ids files message].
  repeat match goal with |- _ /\ _ => split end; try reflexivity.
  apply map_ext. intros id. f_equal.
  destruct fileEntries as [ | e es ]; [ reflexivity | ].
  unfold orElseJ, orElse, truthy.
  destruct (String.eqb_spec (name e) "") as [-> | _]; reflexivity.
Qed.

(** X12: a first answer with a 2xx status whose body is a mapping
    without [results] and [files] lists and with at least one resolvable
    id is reported as a success after that one attempt: the ids are the
    resolver's, in its order, and there is one file descriptor per id. *)
Theorem first_attempt_success resp txt props :
  fetch "file" fileEntries = Ok resp ->
  text resp = Ok txt ->
  ok resp = true ->
  JSON_parse txt = Some (JObj props) ->
  truthy (lookup "results" props) = false ->
  truthy (lookup "files" props) = false ->
  resolve (JObj props) <> [] ->
  let out := POST LYZR_API_KEY JSON_parse fetch request in
  fst out = ["file"]
  /\ http_status (snd out) = 200
  /\ success (body (snd out)) = true
  /\ asset_ids (body (snd out)) = resolve (JObj props)
  /\ map uf_asset_id (files (body (snd out)))
     = map JStr (resolve (JObj props)).
Proof.
  intros Hf Ht Hok Hp Hr Hfl Hids out. subst out.
  rewrite POST_uploading.
  rewrite (loop_stops "file" ["files"] fileEntries _ resp txt Hf Ht
             (ok_is_not_client_error resp Hok)).
  cbn [fst snd bind response responseText data]. rewrite Hok, Hp.
  destruct (okBranch_plain_mapping resp txt props Hr Hfl Hids)
    as (r & -> & H1 & H2 & H3 & H4 & _).
  rewrite H4, map_map. cbn [uf_asset_id]. auto.
Qed.

(** X13: the retry recovers an upload: when the first answer is 400 or
    422 and the second is a 2xx mapping as above, the response is a
    success carrying the ids resolved from the second body, after
    exactly the two attempts. *)
Theorem retry_recovers_upload resp1 txt1 resp2 txt2 props :
  fetch "file" fileEntries = Ok resp1 ->
  text resp1 = Ok txt1 ->
  (status resp1 =? 422) || (status resp1 =? 400) = true ->
  fetch "files" fileEntries = Ok resp2 ->
  text resp2 = Ok txt2 ->
  ok resp2 = true ->
  JSON_parse txt2 = Some (JObj props) ->
  truthy (lookup "results" props) = false ->
  truthy (lookup "files" props) = false ->
  resolve (JObj props) <> [] ->
  let out := POST LYZR_API_KEY JSON_parse fetch request in
  fst out = ["file"; "files"]
  /\ http_status (snd out) = 200
  /\ success (body (snd out)) = true
  /\ asset_ids (body (snd out)) = resolve (JObj props).
Proof.
  intros Hf1 Ht1 Hs1 Hf2 Ht2 Hok2 Hp Hr Hfl Hids out. subst out.
  rewrite POST_uploading.
  rewrite (loop_continues "file" ["files"] fileEntries _ resp1 txt1 Hf1 Ht1 Hs1).
  rewrite (loop_stops "files" [] fileEntries _ resp2 txt2 Hf2 Ht2
             (ok_is_not_client_error resp2 Hok2)).
  cbn [fst snd bind response responseText data]. rewrite Hok2, Hp.
  destruct (okBranch_plain_mapping resp2 txt2 props Hr Hfl Hids)
    as (r & -> & H1 & H2 & H3 & _).
  auto.
Qed.

Lemma describeResult_defined r :
  r <> JNull -> exists u, describeResult r = Ok u.
Proof.
  intros H. unfold describeResult.
  destruct r; try contradiction; cbn [propStrict bind]; eauto.
Qed.

Lemma mapM_null_throws rs :
  In JNull rs -> exists m, mapM describeResult rs = Throw m.
Proof.
  induction rs as [ | r rs IH ]; intros Hin; [ contradiction | ].
  cbn [mapM].
  destruct (describeResult r) as [u | m] eqn:E; cbn [bind]; [ | eauto ].
  destruct Hin as [-> | Hin]; [ discriminate E | ].
  destruct (IH Hin) as [m ->]. cbn [bind]. eauto.
Qed.

(** X14: a 2xx answer whose body lists a [null] among its [results]
    makes the handler fail as a whole: the response is the HTTP 500
    server error with no asset ids, whatever ids the body carries. *)
Theorem null_result_entry_aborts_upload resp txt props rs :
  fetch "file" fileEntries = Ok resp ->
  text resp = Ok txt ->
  ok resp = true ->
  JSON_parse txt = Some (JObj props) ->
  lookup "results" props = Some (JArr rs) ->
  In JNull rs ->
  let out := POST LYZR_API_KEY JSON_parse fetch request in
  fst out = ["file"]
  /\ http_status (snd out) = 500
  /\ success (body (snd out)) = false
  /\ asset_ids (body (snd out)) = []
  /\ message (body (snd out)) = "Server error during upload".
Proof.
  intros Hf Ht Hok Hp Hr Hin out. subst out.
  rewrite POST_uploading.
  rewrite (loop_stops "file" ["files"] fileEntries _ resp txt Hf Ht
             (ok_is_not_client_error resp Hok)).
  cbn [fst snd bind response responseText data]. rewrite Hok, Hp.
  assert (exists m, okBranch (List.length (getAll "files" fd)) fileEntries
                      resp txt (JObj props) = Throw m) as [m E].
  { unfold okBranch. cbn [propStrict prop bind]. rewrite Hr.
    unfold orElse at 1. cbn [truthy].
    destruct (mapM_null_throws rs Hin) as [m ->]. cbn [bind]. eauto. }
  rewrite E. repeat split.
Qed.

(** X15: a 2xx answer whose body is the JSON value [null] is answered
    with the HTTP 500 server error after the one attempt. *)
Theorem null_body_is_a_server_error resp txt :
  fetch "file" fileEntries = Ok resp ->
  text resp = Ok txt ->
  ok resp = true ->
  JSON_parse txt = Some JNull ->
  let out := POST LYZR_API_KEY JSON_parse fetch request in
  fst out = ["file"]
  /\ http_status (snd out) = 500
  /\ success (body (snd out)) = false
  /\ message (body (snd out)) = "Server error during upload".
Proof.
  intros Hf Ht Hok Hp out. subst out.
  rewrite POST_uploading.
  rewrite (loop_stops "file" ["files"] fileEntries _ resp txt Hf Ht
             (ok_is_not_client_error resp Hok)).
  cbn [fst snd bind response responseText data]. rewrite Hok, Hp.
  repeat split.
Qed.

End Uploading.

End Handler.

Lemma success_is_a_clean_200_witness :
  http_status (snd (POST "key" parseSample (upstreamBody oneIdBody) oneCsv))
  = 200.
Proof.
  apply (success_is_a_clean_200 "key" parseSample (upstreamBody oneIdBody)
           oneCsv).
  reflexivity.
Defined.

Lemma debug_only_on_empty_resolution_witness :
  success (body (snd (POST "key" parseSample (upstreamBody "{}") oneCsv)))
  = false.
Proof.
  apply (debug_only_on_empty_resolution "key" parseSample (upstreamBody "{}")
           oneCsv
           {| raw_keys := []; raw_response := "{}"; debug_status := 200 |}).
  reflexivity.
Defined.

Lemma unparsable_ok_body_reports_failure_witness :
  snd (POST "key" parseSample (upstreamBody "<html>gateway</html>") oneCsv)
  = {| body :=
         {| success := false; asset_ids := []; files := [];
            total_files := jnat 1; successful_uploads := 0;
            failed_uploads := 1;
            message := "Upload completed but no asset IDs found in response";
            _debug := Some {| raw_keys := ["_raw"];
                              raw_response := "<html>gateway</html>";
                              debug_status := 200 |};
            error := None |};
       http_status := 200 |}.
Proof.
  rewrite (unparsable_ok_body_reports_failure "key" parseSample
             (upstreamBody "<html>gateway</html>") oneCsv csvFields csvEntries
             ltac:(discriminate) eq_refl ltac:(discriminate) eq_refl
             {| status := 200; text := Ok "<html>gateway</html>" |}
             "<html>gateway</html>" eq_refl eq_refl eq_refl eq_refl).
  reflexivity.
Defined.

Lemma upstream_error_status_is_mirrored_witness :
  http_status (snd (POST "key" parseSample (upstreamStatus 503) oneCsv)) = 503
  /\ http_status (snd (POST "key" parseSample (upstreamStatus 304) oneCsv))
     = 500.
Proof.
  split.
  - destruct (upstream_error_status_is_mirrored "key" parseSample
                (upstreamStatus 503) oneCsv csvFields csvEntries
                ltac:(discriminate) eq_refl ltac:(discriminate) eq_refl
                {| status := 503; text := Ok "{}" |} "{}"
                eq_refl eq_refl eq_refl eq_refl) as (_ & _ & _ & H & _).
    apply H; cbn [status]; [ lia | discriminate ].
  - destruct (upstream_error_status_is_mirrored "key" parseSample
                (upstreamStatus 304) oneCsv csvFields csvEntries
                ltac:(discriminate) eq_refl ltac:(discriminate) eq_refl
                {| status := 304; text := Ok "{}" |} "{}"
                eq_refl eq_refl eq_refl eq_refl) as (_ & _ & _ & _ & H).
    apply H. right. right. reflexivity.
Defined.

Lemma second_failure_status_is_mirrored_witness :
  fst (POST "key" parseSample (upstreamStatus 422) oneCsv) = ["file"; "files"]
  /\ http_status (snd (POST "key" parseSample (upstreamStatus 422) oneCsv))
     = 422.
Proof.
  destruct (second_failure_status_is_mirrored "key" parseSample
              (upstreamStatus 422) oneCsv csvFields csvEntries
              ltac:(discriminate) eq_refl ltac:(discriminate) eq_refl
              {| status := 422; text := Ok "{}" |} "{}"
              {| status := 422; text := Ok "{}" |} "{}"
              eq_refl eq_refl eq_refl eq_refl eq_refl eq_refl)
    as (H1 & _ & H2 & _).
  split; [ exact H1 | ].
  apply H2; cbn [status]; [ lia | discriminate ].
Defined.

Lemma first_attempt_success_witness :
  asset_ids (body (snd (POST "key" parseSample (upstreamBody oneIdBody)
                          oneCsv)))
  = ["asset-0123456789"].
Proof.
  apply (first_attempt_success "key" parseSample (upstreamBody oneIdBody)
           oneCsv csvFields csvEntries
           ltac:(discriminate) eq_refl ltac:(discriminate) eq_refl
           {| status := 200; text := Ok oneIdBody |} oneIdBody
           [("asset_id", JStr "asset-0123456789")]
           eq_refl eq_refl eq_refl eq_refl eq_refl eq_refl
           ltac:(discriminate)).
Defined.

Lemma retry_recovers_upload_witness :
  fst (POST "key" parseSample upstreamWantsFiles oneCsv) = ["file"; "files"]
  /\ asset_ids (body (snd (POST "key" parseSample upstreamWantsFiles oneCsv)))
     = ["asset-0123456789"].
Proof.
  destruct (retry_recovers_upload "key" parseSample upstreamWantsFiles
              oneCsv csvFields csvEntries
              ltac:(discriminate) eq_refl ltac:(discriminate) eq_refl
              {| status := 422; text := Ok "{}" |} "{}"
              {| status := 200; text := Ok oneIdBody |} oneIdBody
              [("asset_id", JStr "asset-0123456789")]
              eq_refl eq_refl eq_refl eq_refl eq_refl eq_refl eq_refl
              eq_refl eq_refl ltac:(discriminate))
    as (H1 & _ & _ & H4).
  split; assumption.
Defined.

Lemma null_result_entry_aborts_upload_witness :
  http_status (snd (POST "key" parseSample (upstreamBody nullResultBody)
                      oneCsv)) = 500.
Proof.
  apply (null_result_entry_aborts_upload "key" parseSample
           (upstreamBody nullResultBody) oneCsv csvFields csvEntries
           ltac:(discriminate) eq_refl ltac:(discriminate) eq_refl
           {| status := 200; text := Ok nullResultBody |} nullResultBody
           [("results", JArr [JNull])] [JNull]
           eq_refl eq_refl eq_refl eq_refl eq_refl (or_introl eq_refl)).
Defined.

Lemma null_body_is_a_server_error_witness :
  http_status (snd (POST "key" parseSample (upstreamBody "null") oneCsv)) = 500.
Proof.
  apply (null_body_is_a_server_error "key" parseSample (upstreamBody "null")
           oneCsv csvFields csvEntries
           ltac:(discriminate) eq_refl ltac:(discriminate) eq_refl
           {| status := 200; text := Ok "null" |} "null"
           eq_refl eq_refl eq_refl eq_refl).
Defined.

End RouteMore.

(* ===================================================================== *)
(** ** Further properties of handleAnalyze *)
(* ===================================================================== *)

Module PageMore.
Import Page Samples MoreSamples PageFacts.

Section Analyze.

Variable JSON_parse : string -> option json.
Variable callAIAgent : string -> string -> list string -> result jsval.

Local Notation "'run' st" := (handleAnalyze JSON_parse callAIAgent st)
  (at level 10, st at level 9).

(** The fields [onSuccess] and [onFailure] leave alone. *)
Lemma onSuccess_frame raw st :
  assetIds (onSuccess JSON_parse raw st) = assetIds st
  /\ sessionId (onSuccess JSON_parse raw st) = sessionId st
  /\ error (onSuccess JSON_parse raw st) = error st.
Proof.
  unfold onSuccess.
  destruct (optProp (optProp raw "module_outputs") "artifact_files")
    as [ [ | | | | [ | first rest ] | ] | ];
    try (split; [ | split ]; reflexivity).
  destruct (truthy (optProp (Some first) "file_url"));
    (split; [ | split ]; reflexivity).
Qed.

Lemma onSuccess_insights raw st :
  insights (onSuccess JSON_parse raw st) =
  slot match optProp (optProp raw "response") "result" with
       | Some (JStr t) =>
           match JSON_parse t with
           | Some v => Some v
           | None => Some (JObj [("executive_summary", JStr t)])
           end
       | other => other
       end.
Proof.
  unfold onSuccess.
  destruct (optProp (optProp raw "response") "result") as [ [ ] | ];
    destruct (optProp (optProp raw "module_outputs") "artifact_files")
      as [ [ | | | | [ | first rest ] | ] | ]; try reflexivity;
    destruct (truthy (optProp (Some first) "file_url")); reflexivity.
Qed.

(** The state in which the outcome of the call is handled. *)
Local Notation "'started' st" :=
  {| assetIds := assetIds st; analyzing := true; insights := None;
     pdfUrl := None; error := None; sessionId := sessionId st;
     activeAgentId := Some AGENT_ID; processing := true |}
  (at level 10, st at level 9).

Lemma handleAnalyze_runs st :
  assetIds st <> [] ->
  run st =
  setProcessing false
    (setActiveAgentId None
       (setAnalyzing false
          (match callAIAgent ANALYZE_MESSAGE AGENT_ID (assetIds st) with
           | Ok raw =>
               let st1 :=
                 if truthy (optProp raw "session_id")
                 then setSessionId (optProp raw "session_id") (started st)
                 else started st in
               if truthy (optProp raw "success")
               then onSuccess JSON_parse raw st1
               else onFailure raw st1
           | Throw _ =>
               setError
                 (Some (JStr "Network error. Please check your connection and try again."))
                 (started st)
           end))).
Proof.
  intros H. unfold handleAnalyze. rewrite (has_assets st H). reflexivity.
Qed.

(** X16: once started, [handleAnalyze] always comes to rest, whether the
    agent answers, reports failure or the call throws: the analyzing and
    processing flags are cleared, no agent is marked active, and the
    held asset ids are the ones it started with. *)
Theorem handleAnalyze_always_settles st :
  assetIds st <> [] ->
  analyzing (handleAnalyze JSON_parse callAIAgent st) = false
  /\ processing (handleAnalyze JSON_parse callAIAgent st) = false
  /\ activeAgentId (handleAnalyze JSON_parse callAIAgent st) = None
  /\ assetIds (handleAnalyze JSON_parse callAIAgent st) = assetIds st.
Proof.
  intros H. rewrite (handleAnalyze_runs st H).
  repeat match goal with |- _ /\ _ => split end; try reflexivity.
  cbn [assetIds setProcessing setActiveAgentId setAnalyzing].
  destruct (callAIAgent _ _ _) as [raw | m]; [ | reflexivity ].
  destruct (truthy (optProp raw "session_id"));
    destruct (truthy (optProp raw "success"));
    cbn zeta; rewrite ?(proj1 (onSuccess_frame raw _)); reflexivity.
Qed.

(** X17: a run never leaves both a result and an error behind, and a
    report URL is only ever stored together with a run that set no
    error. *)
Theorem result_and_error_exclude_each_other st :
  assetIds st <> [] ->
  (insights (handleAnalyze JSON_parse callAIAgent st) = None
   \/ error (handleAnalyze JSON_parse callAIAgent st) = None)
  /\ (pdfUrl (handleAnalyze JSON_parse callAIAgent st) <> None ->
      error (handleAnalyze JSON_parse callAIAgent st) = None).
Proof.
  intros H. rewrite (handleAnalyze_runs st H).
  cbn [insights error pdfUrl setProcessing setActiveAgentId setAnalyzing].
  destruct (callAIAgent _ _ _) as [raw | m].
  - destruct (truthy (optProp raw "session_id"));
      destruct (truthy (optProp raw "success")); cbn zeta.
    + rewrite (proj2 (proj2 (onSuccess_frame raw _))). split; auto.
    + split; [ left; reflexivity | intros K; now contradiction K ].
    + rewrite (proj2 (proj2 (onSuccess_frame raw _))). split; auto.
    + split; [ left; reflexivity | intros K; now contradiction K ].
  - split; [ left; reflexivity | intros K; now contradiction K ].
Qed.

(** X18: when the agent call throws, the run ends with the network
    error text, no insights, no report URL and the session id it had. *)
Theorem thrown_call_is_a_network_error st msg :
  assetIds st <> [] ->
  callAIAgent ANALYZE_MESSAGE AGENT_ID (assetIds st) = Throw msg ->
  error (run st)
  = Some (JStr "Network error. Please check your connection and try again.")
  /\ insights (run st) = None
  /\ pdfUrl (run st) = None
  /\ sessionId (run st) = sessionId st.
Proof.
  intros H Hcall. rewrite (handleAnalyze_runs st H), Hcall. repeat split.
Qed.

(** X19: on success a structured result other than [null] is stored
    as it came, and a text result is stored as the value it parses to;
    nothing is defaulted or dropped when storing.  A result that is
    [null], or a text that parses to [null], leaves the insights
    empty. *)
Theorem structured_result_is_stored_verbatim st raw v :
  assetIds st <> [] ->
  callAIAgent ANALYZE_MESSAGE AGENT_ID (assetIds st) = Ok raw ->
  truthy (optProp raw "success") = true ->
  optProp (optProp raw "response") "result" = Some v ->
  ((forall t, v <> JStr t) -> v <> JNull -> insights (run st) = Some v)
  /\ (forall t parsedValue,
         v = JStr t -> JSON_parse t = Some parsedValue ->
         parsedValue <> JNull ->
         insights (run st) = Some parsedValue)
  /\ (v = JNull \/ (exists t, v = JStr t /\ JSON_parse t = Some JNull) ->
      insights (run st) = None).
Proof.
  intros H Hcall Hs Hres.
  destruct (handleAnalyze_resolved JSON_parse callAIAgent st raw H Hcall)
    as (Hi & _ & _).
  rewrite Hs in Hi. rewrite Hi, onSuccess_insights, Hres.
  split; [ | split ].
  - intros Hv Hnull.
    destruct v as [ | b | n | t | items | entries ]; try reflexivity.
    + now contradiction Hnull.
    + now contradiction (Hv t).
  - intros t parsedValue -> Hp Hnull. rewrite Hp.
    destruct parsedValue; try reflexivity. now contradiction Hnull.
  - intros [-> | (t & -> & Hp)]; [ reflexivity | ]. rewrite Hp. reflexivity.
Qed.

(** X20: the session id of an answer is recorded whether or not the
    answer reports success; an answer without one leaves the previous
    session id in place. *)
Theorem session_id_is_recorded_first st raw :
  assetIds st <> [] ->
  callAIAgent ANALYZE_MESSAGE AGENT_ID (assetIds st) = Ok raw ->
  sessionId (run st) =
  if truthy (optProp raw "session_id")
  then optProp raw "session_id" else sessionId st.
Proof.
  intros H Hcall. rewrite (handleAnalyze_runs st H), Hcall.
  cbn [sessionId setProcessing setActiveAgentId setAnalyzing].
  destruct (truthy (optProp raw "session_id"));
    destruct (truthy (optProp raw "success")); cbn zeta;
    rewrite ?(proj1 (proj2 (onSuccess_frame raw _))); reflexivity.
Qed.

End Analyze.

Lemma handleAnalyze_always_settles_witness :
  analyzing (handleAnalyze parseEmptyOnly agentThrows readyState) = false
  /\ assetIds (handleAnalyze parseEmptyOnly agentThrows readyState)
     = ["asset-0123456789"].
Proof.
  destruct (handleAnalyze_always_settles parseEmptyOnly agentThrows readyState)
    as (H1 & _ & _ & H4); [ discriminate | ].
  split; assumption.
Defined.

Lemma result_and_error_exclude_each_other_witness :
  insights (handleAnalyze parseEmptyOnly (agentReturns failedResponse)
              readyState) = None
  \/ error (handleAnalyze parseEmptyOnly (agentReturns failedResponse)
              readyState) = None.
Proof.
  apply (result_and_error_exclude_each_other parseEmptyOnly
           (agentReturns failedResponse) readyState).
  discriminate.
Defined.

Lemma thrown_call_is_a_network_error_witness :
  insights (handleAnalyze parseEmptyOnly agentThrows readyState) = None.
Proof.
  apply (thrown_call_is_a_network_error parseEmptyOnly agentThrows readyState
           "Failed to fetch").
  - discriminate.
  - reflexivity.
Defined.

Lemma structured_result_is_stored_verbatim_witness :
  insights (handleAnalyze parseEmptyOnly (agentReturns structuredResponse)
              readyState)
  = Some (JObj [("executive_summary", JStr "ok")]).
Proof.
  destruct (structured_result_is_stored_verbatim parseEmptyOnly
              (agentReturns structuredResponse) readyState
              (Some structuredResponse)
              (JObj [("executive_summary", JStr "ok")]))
    as (H & _).
  - discriminate.
  - reflexivity.
  - reflexivity.
  - reflexivity.
  - apply H; discriminate.
Defined.

Lemma session_id_is_recorded_first_witness :
  sessionId (handleAnalyze parseEmptyOnly (agentReturns failedWithSession)
               readyState) = Some (JStr "session-2").
Proof.
  apply (session_id_is_recorded_first parseEmptyOnly
           (agentReturns failedWithSession) readyState
           (Some failedWithSession)).
  - discriminate.
  - reflexivity.
Defined.

End PageMore.

(* ===================================================================== *)
(** ** Properties of the file helpers *)
(* ===================================================================== *)

Module FilesFacts.
Import Upload Files MoreSamples.

(** The characters of a text. *)
Local Notation "'chars' s" := (list_ascii_of_string s)
  (at level 10, s at level 9).

Lemma lowerChar_idempotent c : lowerChar (lowerChar c) = lowerChar c.
Proof.
  destruct c as [[] [] [] [] [] [] [] []]; reflexivity.
Qed.

Lemma lowerChar_dot c : lowerChar c = "."%char -> c = "."%char.
Proof.
  destruct c as [[] [] [] [] [] [] [] []]; vm_compute; congruence.
Qed.

Lemma toLowerCase_idempotent s : toLowerCase (toLowerCase s) = toLowerCase s.
Proof.
  induction s as [ | c s IH ]; simpl; [ reflexivity | ].
  now rewrite lowerChar_idempotent, IH.
Qed.

Lemma toLowerCase_keeps_dot_free s :
  ~ In "."%char (chars s) -> ~ In "."%char (chars (toLowerCase s)).
Proof.
  induction s as [ | c s IH ]; simpl; [ tauto | ].
  intros H [E | Hin].
  - apply H. left. now apply lowerChar_dot.
  - apply IH; [ | exact Hin ]. intros K. apply H. now right.
Qed.

Lemma toLowerCase_reflects_dot s :
  In "."%char (chars s) -> In "."%char (chars (toLowerCase s)).
Proof.
  induction s as [ | c s IH ]; simpl; [ tauto | ].
  intros [-> | Hin]; [ left; reflexivity | right; auto ].
Qed.

Lemma split_nonempty sep s : split sep s <> [].
Proof.
  destruct s as [ | c s ]; simpl; [ discriminate | ].
  destruct (Ascii.eqb c sep); [ discriminate | ].
  destruct (split sep s); discriminate.
Qed.

Lemma split_without_separator sep s :
  ~ In sep (chars s) -> split sep s = [s].
Proof.
  induction s as [ | c s IH ]; simpl; [ reflexivity | ].
  intros H. destruct (Ascii.eqb_spec c sep) as [-> | _].
  - exfalso. apply H. now left.
  - rewrite IH; [ reflexivity | ]. intros K. apply H. now right.
Qed.

Lemma split_at_separator sep a b :
  split sep (a ++ String sep b) = split sep a ++ split sep b.
Proof.
  induction a as [ | c a IH ]; simpl.
  - rewrite Ascii.eqb_refl. reflexivity.
  - destruct (Ascii.eqb c sep); [ now rewrite IH | ].
    rewrite IH. pose proof (split_nonempty sep a).
    destruct (split sep a); [ contradiction | reflexivity ].
Qed.

Lemma split_segments_are_separator_free sep s :
  Forall (fun seg => ~ In sep (chars seg)) (split sep s).
Proof.
  induction s as [ | c s IH ]; simpl.
  - constructor; [ simpl; tauto | constructor ].
  - destruct (Ascii.eqb_spec c sep) as [-> | Hne].
    + constructor; [ simpl; tauto | exact IH ].
    + destruct (split sep s) as [ | seg segs ].
      * constructor; [ | constructor ]. simpl. intros [E | []]. now apply Hne.
      * inversion IH as [ | x l Hseg Hsegs ]. constructor; [ | exact Hsegs ].
        simpl. intros [E | Hin]; [ now apply Hne | now apply Hseg ].
Qed.

Lemma pop_app l1 l2 : l2 <> [] -> pop (l1 ++ l2) = pop l2.
Proof.
  intros H. induction l1 as [ | x l1 IH ]; [ reflexivity | ].
  simpl. destruct (l1 ++ l2) eqn:E; [ | exact IH ].
  apply app_eq_nil in E. tauto.
Qed.

Lemma pop_In l x : pop l = Some x -> In x l.
Proof.
  induction l as [ | y l IH ]; simpl; [ discriminate | ].
  destruct l; [ intros [= ->]; now left | intros H; right; now apply IH ].
Qed.

(** X21: the extension is what follows the last dot, in lower case: for
    a name ending in a dot and a dot-free suffix it is that suffix
    lowered, and for a name without any dot it is the whole name
    lowered. *)
Theorem extension_is_the_text_after_the_last_dot stem ext :
  ~ In "."%char (chars ext) ->
  getFileExtension (stem ++ "." ++ ext) = toLowerCase ext
  /\ getFileExtension ext = toLowerCase ext.
Proof.
  intros H. unfold getFileExtension.
  change (stem ++ "." ++ ext)%string with (stem ++ String "." ext)%string.
  rewrite split_at_separator, pop_app by apply split_nonempty.
  rewrite (split_without_separator "." ext H). split; reflexivity.
Qed.

Lemma extension_is_the_text_after_the_last_dot_witness :
  getFileExtension "Q3.Sales.CSV" = "csv".
Proof.
  apply (extension_is_the_text_after_the_last_dot "Q3.Sales" "CSV").
  simpl. intuition discriminate.
Defined.

(** X22: whatever the name, the extension contains no dot and is
    already in lower case. *)
Theorem extension_is_dot_free_and_lowered name :
  ~ In "."%char (chars (getFileExtension name))
  /\ toLowerCase (getFileExtension name) = getFileExtension name.
Proof.
  unfold getFileExtension.
  destruct (pop (split "." name)) as [ext | ] eqn:E.
  - split; [ | apply toLowerCase_idempotent ].
    apply toLowerCase_keeps_dot_free.
    pose proof (split_segments_are_separator_free "." name) as F.
    rewrite Forall_forall in F. apply F. now apply pop_In.
  - split; [ simpl; tauto | reflexivity ].
Qed.

End FilesFacts.

(* ===================================================================== *)
(** ** Properties of the upload side of the page *)
(* ===================================================================== *)

Module CoordinatorFacts.
Import Upload Page Files Coordinator MoreSamples FilesFacts.

Local Notation "'chars' s" := (list_ascii_of_string s)
  (at level 10, s at level 9).

Lemma accepted_extension_is_dot_free ext :
  In (toLowerCase ext) ACCEPTED_EXTENSIONS -> ~ In "."%char (chars ext).
Proof.
  intros Hin Hdot. apply toLowerCase_reflects_dot in Hdot.
  unfold ACCEPTED_EXTENSIONS in Hin. simpl in Hin.
  destruct Hin as [E | [E | [E | []]]]; rewrite <- E in Hdot;
    simpl in Hdot; intuition discriminate.
Qed.

Lemma includes_In arr x : includes arr x = true <-> In x arr.
Proof.
  unfold includes. rewrite existsb_exists. split.
  - intros (y & Hy & E). apply String.eqb_eq in E. now subst.
  - intros H. exists x. split; [ exact H | apply String.eqb_refl ].
Qed.

(** X23: a file is accepted on its extension alone, in any letter case
    and whatever its MIME type, and on its MIME type alone, whatever its
    name; accepting clears the file error. *)
Theorem validateFile_accepts_on_either_ground f st :
  (exists stem ext,
      file_name f = (stem ++ "." ++ ext)%string
      /\ In (toLowerCase ext) ACCEPTED_EXTENSIONS)
  \/ In (file_type f) acceptedTypes ->
  validateFile f st = (true, setFileError None st).
Proof.
  intros H. unfold validateFile.
  assert (includes ACCEPTED_EXTENSIONS (getFileExtension (file_name f)) = true
          \/ includes acceptedTypes (file_type f) = true) as K.
  { destruct H as [(stem & ext & -> & Hin) | Hty].
    - left. apply includes_In.
      destruct (extension_is_the_text_after_the_last_dot stem ext
                  (accepted_extension_is_dot_free ext Hin)) as [-> _].
      exact Hin.
    - right. now apply includes_In. }
  destruct K as [-> | ->]; [ reflexivity | ].
  rewrite andb_false_r. reflexivity.
Qed.

Lemma validateFile_accepts_on_either_ground_witness :
  fst (validateFile csvFile idle) = true.
Proof.
  rewrite (validateFile_accepts_on_either_ground csvFile idle);
    [ reflexivity | ].
  left. exists "Q3.Sales", "CSV". split; [ reflexivity | ].
  simpl. tauto.
Defined.

Section Handlers.

Variable uploadFiles : File -> result UploadOutcome.
Variable JSON_parse : string -> option json.
Variable callAIAgent : string -> string -> list string -> result jsval.
Variable agentEventsReset : bool -> bool.

Local Notation "'select' f st" := (handleFileSelect uploadFiles f st)
  (at level 10, f at level 9, st at level 9).
Local Notation "'analyse' st" := (analyze JSON_parse callAIAgent st)
  (at level 10, st at level 9).

(** X24: selecting a file that fails validation makes no upload and
    touches nothing but the file error: the file shown, the held asset
    ids and any insights stay as they were. *)
Theorem rejected_file_changes_only_the_error f st :
  fst (validateFile f st) = false ->
  select f st
  = ([], setFileError
           (Some "Unsupported format. Please upload .xlsx or .csv files only.")
           st).
Proof.
  unfold handleFileSelect, validateFile.
  destruct (negb _ && negb _); [ reflexivity | discriminate ].
Qed.

(** The state after an accepted selection, before the upload answers. *)
Local Notation "'cleared' f st" :=
  {| page := {| assetIds := []; analyzing := analyzing (page st);
                insights := None; pdfUrl := None; error := None;
                sessionId := sessionId (page st);
                activeAgentId := activeAgentId (page st);
                processing := processing (page st) |};
     file := Some f; fileError := None; uploading := true;
     showSample := showSample st; isDragging := isDragging st |}
  (at level 10, f at level 9, st at level 9).

Lemma accepted_selection f st :
  fst (validateFile f st) = true ->
  select f st =
  ([f],
   setUploading false
     (match uploadFiles f with
      | Ok uploadResult =>
          match up_success uploadResult, up_asset_ids uploadResult with
          | true, Some (id :: ids) =>
              withPage (setAssetIds (id :: ids) (page (cleared f st)))
                (cleared f st)
          | _, _ =>
              setFileError
                (Some (match up_error uploadResult with
                       | Some e => e
                       | None => "Upload failed. Please try again."
                       end)) (cleared f st)
          end
      | Throw _ =>
          setFileError
            (Some "Upload failed. Please check your connection and try again.")
            (cleared f st)
      end)).
Proof.
  unfold handleFileSelect, validateFile.
  destruct (negb _ && negb _); [ discriminate | reflexivity ].
Qed.

Lemma ids_held_iff_no_file_error f st :
  fst (validateFile f st) = true ->
  assetIds (page (snd (select f st))) <> []
  <-> fileError (snd (select f st)) = None.
Proof.
  intros H. rewrite (accepted_selection f st H). cbn [snd].
  destruct (uploadFiles f) as [[[] [[ | id ids] | ] err] | m];
    cbn; split; intros K;
    first [ reflexivity | discriminate
          | exfalso; apply K; reflexivity ].
Qed.

(** X25: after an accepted selection exactly one upload has been made,
    the upload flag is down, the file is the selected one, earlier
    insights, report URL and error are gone, and the page holds asset
    ids exactly when the file-error state is [null] (a failed upload
    always sets it, be it to an empty text). *)
Theorem accepted_file_ends_ready_or_with_error f st :
  fst (validateFile f st) = true ->
  fst (select f st) = [f]
  /\ uploading (snd (select f st)) = false
  /\ file (snd (select f st)) = Some f
  /\ insights (page (snd (select f st))) = None
  /\ pdfUrl (page (snd (select f st))) = None
  /\ Page.error (page (snd (select f st))) = None
  /\ (assetIds (page (snd (select f st))) <> []
      <-> fileError (snd (select f st)) = None).
Proof.
  intros H.
  repeat match goal with |- _ /\ _ => split end;
    try apply (ids_held_iff_no_file_error f st H);
    rewrite (accepted_selection f st H); cbn [fst snd];
    try reflexivity;
    destruct (uploadFiles f) as [[[] [[ | id ids] | ] err] | m];
    reflexivity.
Qed.

(** X26: the asset ids held after an accepted selection are the ones the
    upload returned when it reported success with a non-empty list, and
    none in every other case (failure flag, missing or empty list,
    thrown error). *)
Theorem held_ids_are_the_uploaded_ones f st :
  fst (validateFile f st) = true ->
  assetIds (page (snd (select f st))) =
  match uploadFiles f with
  | Ok {| up_success := true; up_asset_ids := Some ids |} => ids
  | _ => []
  end.
Proof.
  intros H. rewrite (accepted_selection f st H). cbn [snd].
  destruct (uploadFiles f) as [[[] [[ | id ids] | ] err] | m]; reflexivity.
Qed.

(** X27: when an accepted selection ends with a file error, a following
    [handleAnalyze] does nothing at all. *)
Theorem failed_upload_blocks_analysis f st :
  fst (validateFile f st) = true ->
  fileError (snd (select f st)) <> None ->
  analyse (snd (select f st)) = snd (select f st).
Proof.
  intros H Herr.
  pose proof (ids_held_iff_no_file_error f st H) as K.
  unfold analyze, handleAnalyze.
  destruct (assetIds (page (snd (select f st)))) as [ | id ids ] eqn:E.
  - cbn [List.length Nat.eqb].
    destruct (snd (select f st)) as [pg fl fe up sh dr]; reflexivity.
  - exfalso. apply Herr, K. discriminate.
Qed.


(** X29: upload and analysis compose: after an accepted selection whose
    upload succeeded, [handleAnalyze] calls the agent with exactly the
    uploaded ids, and a structured result (neither text nor [null]) of
    a successful answer ends up as the insights. *)
Theorem uploaded_ids_reach_the_agent f st id ids err raw v :
  fst (validateFile f st) = true ->
  uploadFiles f = Ok {| up_success := true; up_asset_ids := Some (id :: ids);
                        up_error := err |} ->
  callAIAgent ANALYZE_MESSAGE AGENT_ID (id :: ids) = Ok raw ->
  truthy (optProp raw "success") = true ->
  optProp (optProp raw "response") "result" = Some v ->
  (forall t, v <> JStr t) ->
  v <> JNull ->
  assetIds (page (snd (select f st))) = id :: ids
  /\ insights (page (analyse (snd (select f st)))) = Some v
  /\ Page.error (page (analyse (snd (select f st)))) = None.
Proof.
  intros H Hup Hcall Hs Hres Hv Hnull.
  assert (assetIds (page (snd (select f st))) = id :: ids) as E.
  { rewrite (accepted_selection f st H), Hup. reflexivity. }
  split; [ exact E | ].
  unfold analyze. cbn [page withPage].
  rewrite (PageMore.handleAnalyze_runs JSON_parse callAIAgent
             (page (snd (select f st)))) by (rewrite E; discriminate).
  rewrite E, Hcall, Hs.
  cbn [insights Page.error setProcessing setActiveAgentId setAnalyzing].
  cbn zeta.
  rewrite PageMore.onSuccess_insights, Hres.
  rewrite (proj2 (proj2 (PageMore.onSuccess_frame JSON_parse raw _))).
  split.
  - destruct v as [ | b | n | t | items | entries ]; try reflexivity.
    + now contradiction Hnull.
    + now contradiction (Hv t).
  - destruct (truthy (optProp raw "session_id")); reflexivity.
Qed.

(** X30: a drop or an input change uploads at most one file, and only
    ever the first of the files offered. *)
Theorem only_the_first_file_is_uploaded offered st :
  (fst (handleDrop uploadFiles offered st) = []
   \/ exists f rest, offered = f :: rest
                     /\ fst (handleDrop uploadFiles offered st) = [f])
  /\ (fst (handleInputChange uploadFiles offered st) = []
      \/ exists f rest, offered = f :: rest
                        /\ fst (handleInputChange uploadFiles offered st)
                           = [f]).
Proof.
  unfold handleDrop, handleInputChange, handleFileSelect.
  destruct offered as [ | f rest ]; [ split; left; reflexivity | ].
  split.
  - destruct (validateFile f (setIsDragging false st)) as [[] st'];
      cbn [negb]; [ right; eauto | left; reflexivity ].
  - destruct (validateFile f st) as [[] st'];
      cbn [negb]; [ right; eauto | left; reflexivity ].
Qed.

End Handlers.

Lemma rejected_file_changes_only_the_error_witness :
  fst (handleFileSelect (uploadsTo ["asset-0123456789"]) pdfFile uploaded) = []
  /\ assetIds (page (snd (handleFileSelect (uploadsTo ["asset-0123456789"])
                            pdfFile uploaded)))
     = ["asset-0123456789"].
Proof.
  rewrite (rejected_file_changes_only_the_error
             (uploadsTo ["asset-0123456789"]) pdfFile uploaded eq_refl).
  split; reflexivity.
Defined.

Lemma accepted_file_ends_ready_or_with_error_witness :
  uploading (snd (handleFileSelect uploadFails csvFile idle)) = false.
Proof.
  apply (accepted_file_ends_ready_or_with_error uploadFails csvFile idle).
  reflexivity.
Defined.

Lemma held_ids_are_the_uploaded_ones_witness :
  assetIds (page (snd (handleFileSelect (uploadsTo ["asset-0123456789"])
                         csvFile idle)))
  = ["asset-0123456789"].
Proof.
  apply (held_ids_are_the_uploaded_ones (uploadsTo ["asset-0123456789"])
           csvFile idle).
  reflexivity.
Defined.

Lemma failed_upload_blocks_analysis_witness :
  analyze Samples.parseEmptyOnly (Samples.agentReturns structuredResponse)
    (snd (handleFileSelect uploadFails csvFile idle))
  = snd (handleFileSelect uploadFails csvFile idle).
Proof.
  apply (failed_upload_blocks_analysis uploadFails Samples.parseEmptyOnly
           (Samples.agentReturns structuredResponse) csvFile idle).
  - reflexivity.
  - discriminate.
Defined.

Lemma uploaded_ids_reach_the_agent_witness :
  insights (page (analyze Samples.parseEmptyOnly
                    (Samples.agentReturns structuredResponse)
                    (snd (handleFileSelect (uploadsTo ["asset-0123456789"])
                            csvFile idle))))
  = Some (JObj [("executive_summary", JStr "ok")]).
Proof.
  apply (uploaded_ids_reach_the_agent (uploadsTo ["asset-0123456789"])
           Samples.parseEmptyOnly (Samples.agentReturns structuredResponse)
           csvFile idle "asset-0123456789" [] None
           (Some structuredResponse)
           (JObj [("executive_summary", JStr "ok")])).
  - reflexivity.
  - reflexivity.
  - reflexivity.
  - reflexivity.
  - reflexivity.
  - discriminate.
  - discriminate.
Defined.

End CoordinatorFacts.
